(** * Trainers of src/trainer.py: step functions, schedules and checkpoints

    A shallow embedding of the two trainer classes of [src/trainer.py]:
    [Trainer] (one fixed loss, one optimizer) and [MarginTrainer] (a network
    and a [CombinedMarginLoss] optimised jointly, with a second optimizer, a
    second learning-rate schedule and a checkpoint format of its own).

    Conventions of the embedding.
    - Python floats are modelled by the rationals they denote ([Q]); rounding
      is not modelled.  The one float that is not a number, the [nan] that
      [torch.mean] returns on an empty tensor, is kept ([PyFloat]).
    - Mutable objects are fields of a state record that every method threads
      through; a raised exception leaves the mutations made before it in
      place ([M], a state monad with errors).
    - The network, the margin loss, autograd, the optimizers of [torch.optim]
      and the base class [TorchTrainer] are collaborators that are not part
      of [src/trainer.py]; they are interfaces (type classes) and every
      statement holds for all of their implementations. *)

From Stdlib Require Import ZArith QArith Lia Ascii.
From stdpp Require Import gmap strings list pretty.

(** ** The schedule of the loss-function optimizer

    [lr_lambda] is the function handed to [LambdaLR] in
    [MarginTrainer.__init__]:
<<
    lr_lambda=lambda epoch: (
        ((epoch + 1) / (4 + 1)) ** 2
        if epoch < -1
        else 0.1 ** len([m for m in [8, 14, 20, 25] if m - 1 <= epoch])
    )
>> *)
Module Schedule.

#[local] Open Scope Q_scope.

Definition milestones : list Z := [8; 14; 20; 25]%Z.

Definition lr_lambda (epoch : Z) : Q :=
  if decide (epoch < -1)%Z
  then (inject_Z (epoch + 1) / inject_Z (4 + 1)) ^ 2
  else 0.1 ^ Z.of_nat (length (filter (λ m, (m - 1 ≤ epoch)%Z) milestones)).

(** The decay law in the words of the specification:
    0.1 to the number of milestones [m] of {8, 14, 20, 25} with
    [m - 1 <= epoch]. *)
Definition milestones_passed (epoch : Z) : nat :=
  (if decide (8 - 1 ≤ epoch)%Z then 1 else 0)%nat +
  (if decide (14 - 1 ≤ epoch)%Z then 1 else 0)%nat +
  (if decide (20 - 1 ≤ epoch)%Z then 1 else 0)%nat +
  (if decide (25 - 1 ≤ epoch)%Z then 1 else 0)%nat.

Definition decay_law (epoch : Z) : Q := 0.1 ^ Z.of_nat (milestones_passed epoch).

(** The table of the specification's testable property:
    1.0 on 0..7, 0.1 on 8..13, 0.01 on 14..19, 0.001 on 20..24 and
    0.0001 from 25 on. *)
Definition claimed_table (epoch : Z) : Q :=
  if decide (epoch ≤ 7)%Z then 1.0
  else if decide (epoch ≤ 13)%Z then 0.1
  else if decide (epoch ≤ 19)%Z then 0.01
  else if decide (epoch ≤ 24)%Z then 0.001
  else 0.0001.

End Schedule.

(** ** Tensors, results and errors *)

(** The exceptions that the modelled code can raise. *)
Inductive Error :=
| KeyError (key : string)
| FileNotFoundError (path : string)
| AssertionError (msg : string)
| TypeError (msg : string)
| RuntimeError (msg : string).

(** The scalar that [.item()] returns: a number, or the [nan] that
    [torch.mean] gives on a tensor without elements. *)
Inductive PyFloat :=
| Fin (q : Q)
| NaN.

(** What the network returns: a structure with the two views [output[0]]
    (class logits, one row per batch element) and [output[1]] (the
    embedding handed to the margin loss). *)
Record Output := {
  out0 : list (list Q);
  out1 : list (list Q);
}.

(** [_, preds = torch.max(logits, 1)]: per row, the index of the first
    maximal entry; a row without entries has no maximum and raises. *)
Fixpoint argmax_from (best_i : nat) (best : Q) (i : nat) (row : list Q) : nat :=
  match row with
  | [] => best_i
  | x :: row' =>
      if Qle_bool x best
      then argmax_from best_i best (S i) row'
      else argmax_from i x (S i) row'
  end.

Definition argmax (row : list Q) : Error + Z :=
  match row with
  | [] => inl (RuntimeError "max(): reduction over a dimension of size 0")
  | x :: row' => inr (Z.of_nat (argmax_from 0 x 1 row'))
  end.

Fixpoint torch_max_dim1 (logits : list (list Q)) : Error + list Z :=
  match logits with
  | [] => inr []
  | row :: rest =>
      match argmax row with
      | inl e => inl e
      | inr p =>
          match torch_max_dim1 rest with
          | inl e => inl e
          | inr ps => inr (p :: ps)
          end
      end
  end.

(** [preds == label] on one-dimensional tensors, with broadcasting: the
    sizes must agree unless one of them is 1. *)
Definition eq_broadcast (preds label : list Z) : Error + list bool :=
  if decide (length preds = length label)
  then inr (zip_with Z.eqb preds label)
  else
    match preds, label with
    | [p], _ => inr (map (Z.eqb p) label)
    | _, [l] => inr (map (λ p, Z.eqb p l) preds)
    | _, _ => inl (RuntimeError "the sizes of the tensors must match")
    end.

Definition count_true (bs : list bool) : nat := length (filter (λ b, b = true) bs).

(** [torch.mean(t.float())] of a tensor of booleans. *)
Definition mean_float (bs : list bool) : PyFloat :=
  match bs with
  | [] => NaN
  | _ :: _ => Fin (Z.of_nat (count_true bs) # Pos.of_nat (length bs))
  end.

(** The accuracy lines shared by the four step functions:
<<
    _, preds = torch.max(logits, 1)
    accuracy = torch.mean((preds == label).float())
>> *)
Definition accuracy (logits : list (list Q)) (label : list Z) : Error + PyFloat :=
  match torch_max_dim1 logits with
  | inl e => inl e
  | inr preds =>
      match eq_broadcast preds label with
      | inl e => inl e
      | inr hits => inr (mean_float hits)
      end
  end.

(** The accuracy in the words of the specification: the fraction of batch
    elements whose argmax prediction equals the label. *)
Definition correct (row : list Q) (l : Z) : bool :=
  match argmax row with
  | inr p => Z.eqb p l
  | inl _ => false
  end.

Definition fraction_correct (logits : list (list Q)) (label : list Z) : Q :=
  Z.of_nat (count_true (zip_with correct logits label)) # Pos.of_nat (length label).

(** The record a step function returns. *)
Record StepResult := {
  loss : Q;
  acc : PyFloat;
}.

(** ** Methods as state transformers that may raise *)

Definition M (St A : Type) : Type := St → (Error + A) * St.

Definition ret {St A} (a : A) : M St A := λ s, (inr a, s).

Definition bind {St A B} (m : M St A) (k : A → M St B) : M St B :=
  λ s, match m s with
       | (inr a, s') => k a s'
       | (inl e, s') => (inl e, s')
       end.

Definition raise {St A} (e : Error) : M St A := λ s, (inl e, s).

Definition get {St} : M St St := λ s, (inr s, s).

Definition modify {St} (f : St → St) : M St unit := λ s, (inr tt, f s).

(** An operation that only computes or raises. *)
Definition lift {St A} (r : Error + A) : M St A := λ s, (r, s).

(** [M St] is a monad in stdpp's sense, which gives the notations
    [x ← m; k] and [m;; k]. *)
Global Instance M_ret {St} : MRet (M St) := λ A, ret.
Global Instance M_bind {St} : MBind (M St) := λ A B k m, bind m k.

(** The calls a step makes on its collaborators, in the order made. *)
Inductive Handle := NetworkOptimizer | CriterionOptimizer.

Inductive Event :=
| EvTrainMode
| EvEvalMode
| EvZeroGrad (h : Handle)
| EvForward
| EvCriterion
| EvBackward
| EvStep (h : Handle)
| EvSchedulerStep (h : Handle).

(** ** Collaborators *)

(** [torch.optim.SGD] over one parameter group: its hyperparameters and the
    momentum buffer of the group's parameters. *)
Record SGD (G : Type) := {
  lr : Q;
  momentum : Q;
  weight_decay : Q;
  momentum_buffer : option G;
}.
Arguments lr {G} _.
Arguments momentum {G} _.
Arguments weight_decay {G} _.
Arguments momentum_buffer {G} _.

(** [torch.optim.lr_scheduler.LambdaLR]: what its [state_dict()] holds (the
    lambda itself is not part of it). *)
Record LambdaLR := {
  base_lr : Q;
  last_epoch : Z;
  last_lr : Q;
  step_count : Z;
}.

(** What [src/trainer.py] imports from torch and from the modules
    [models.networks] and [models.losses]:
    - the network: [forward training state input_ids audio] is the call
      [self.network(input_ids, audio)] in training or evaluation mode, a
      function of the mode, of the content of [state_dict()] and of the
      inputs;
    - the margin loss [CombinedMarginLoss]: [margin_loss] maps its
      parameters, an embedding and the labels to the pair (loss, logits);
    - autograd: [grad_fixed] and [grad_margin] are what [loss.backward()]
      adds to the [.grad] of the parameters for the training-mode forward
      pass of a batch;
    - the optimizers: [opt_step] is [self.optimizer.step()], [sgd_step] is
      the step of [torch.optim.SGD]; parameters whose gradient is [None]
      are the optimizer's business;
    - the schedule of the network optimizer: [sched_step] is
      [self.scheduler.step()], which writes the new rate into the
      optimizer. *)
Class Torch := {
  TokenIds : Type;
  Audio : Type;
  NetState : Type;
  NetGrad : Type;
  forward : bool → NetState → TokenIds → Audio → Output;
  CritState : Type;
  CritGrad : Type;
  margin_loss : CritState → list (list Q) → list Z → Q * list (list Q);
  grad_fixed :
    (Output → list Z → Q) → NetState → TokenIds → Audio → list Z → NetGrad;
  grad_margin :
    NetState → CritState → TokenIds → Audio → list Z → NetGrad * CritGrad;
  net_grad_add : NetGrad → NetGrad → NetGrad;
  crit_grad_add : CritGrad → CritGrad → CritGrad;
  OptState : Type;
  opt_step : OptState → NetState → option NetGrad → OptState * NetState;
  sgd_step : SGD CritGrad → CritState → option CritGrad → SGD CritGrad * CritState;
  SchedState : Type;
  sched_step : SchedState → OptState → SchedState * OptState;
}.

(** [p.grad] after a backward pass that contributes [g]. *)
Definition accumulate {G} (add : G → G → G) (old : option G) (g : G) : option G :=
  match old with
  | None => Some g
  | Some g0 => Some (add g0 g)
  end.

(** ** class Trainer *)
Module Trainer.
Section WithTorch.
Context `{Torch}.

Record state := {
  network : NetState;
  training : bool;
  grad : option NetGrad;
  criterion : option (Output → list Z → Q);
  optimizer : OptState;
  log : list Event;
}.

Definition set_network (v : NetState) (s : state) : state :=
  {| network := v; training := training s; grad := grad s;
     criterion := criterion s; optimizer := optimizer s; log := log s |}.
Definition set_training (v : bool) (s : state) : state :=
  {| network := network s; training := v; grad := grad s;
     criterion := criterion s; optimizer := optimizer s; log := log s |}.
Definition set_grad (v : option NetGrad) (s : state) : state :=
  {| network := network s; training := training s; grad := v;
     criterion := criterion s; optimizer := optimizer s; log := log s |}.
Definition set_optimizer (v : OptState) (s : state) : state :=
  {| network := network s; training := training s; grad := grad s;
     criterion := criterion s; optimizer := v; log := log s |}.
Definition emit (ev : Event) (s : state) : state :=
  {| network := network s; training := training s; grad := grad s;
     criterion := criterion s; optimizer := optimizer s; log := log s ++ [ev] |}.

(** [self.network.train()] and [self.network.eval()]. *)
Definition network_train : M state unit :=
  modify (λ s, emit EvTrainMode (set_training true s)).
Definition network_eval : M state unit :=
  modify (λ s, emit EvEvalMode (set_training false s)).

(** [self.optimizer.zero_grad()]. *)
Definition optimizer_zero_grad : M state unit :=
  modify (λ s, emit (EvZeroGrad NetworkOptimizer) (set_grad None s)).

(** [self.network(input_ids, audio)]. *)
Definition network_call (input_ids : TokenIds) (audio : Audio) : M state Output :=
  s ← get;
  modify (emit EvForward);;
  mret (forward (training s) (network s) input_ids audio).

(** [self.criterion(output, label)]; the default criterion [None] is not
    callable. *)
Definition criterion_call (output : Output) (label : list Z) : M state Q :=
  s ← get;
  match criterion s with
  | None => raise (TypeError "'NoneType' object is not callable")
  | Some c => modify (emit EvCriterion);; mret (c output label)
  end.

(** [loss.backward()]; the arguments stand for the graph that the loss
    tensor of this forward pass holds. *)
Definition loss_backward (input_ids : TokenIds) (audio : Audio) (label : list Z)
  : M state unit :=
  s ← get;
  match criterion s with
  | None => raise (TypeError "'NoneType' object is not callable")
  | Some c =>
      let g := grad_fixed c (network s) input_ids audio label in
      modify (λ s, emit EvBackward (set_grad (accumulate net_grad_add (grad s) g) s))
  end.

(** [self.optimizer.step()]. *)
Definition optimizer_step : M state unit :=
  modify (λ s,
    let stepped := opt_step (optimizer s) (network s) (grad s) in
    emit (EvStep NetworkOptimizer)
      (set_optimizer stepped.1 (set_network stepped.2 s))).

Definition train_step (batch : TokenIds * Audio * list Z) : M state StepResult :=
  network_train;;
  optimizer_zero_grad;;
  let '(input_ids, audio, label) := batch in
  output ← network_call input_ids audio;
  loss ← criterion_call output label;
  loss_backward input_ids audio label;;
  optimizer_step;;
  accuracy ← lift (accuracy (out0 output) label);
  mret {| loss := loss; acc := accuracy |}.

Definition test_step (batch : TokenIds * Audio * list Z) : M state StepResult :=
  network_eval;;
  let '(input_ids, audio, label) := batch in
  output ← network_call input_ids audio;
  loss ← criterion_call output label;
  accuracy ← lift (accuracy (out0 output) label);
  mret {| loss := loss; acc := accuracy |}.

End WithTorch.
End Trainer.

(** ** class MarginTrainer *)

(** [os.path.join(a, b)] on a POSIX system. *)
Fixpoint ends_with_slash (s : string) : bool :=
  match s with
  | EmptyString => false
  | String c EmptyString => bool_decide (c = "/"%char)
  | String _ s' => ends_with_slash s'
  end.

Definition starts_with_slash (s : string) : bool :=
  match s with
  | String c _ => bool_decide (c = "/"%char)
  | EmptyString => false
  end.

Definition path_join (a b : string) : string :=
  if starts_with_slash b then b
  else if bool_decide (a = "") || ends_with_slash a then a +:+ b
  else a +:+ "/" +:+ b.

(** ["checkpoint_{}_{}.pt".format(global_epoch, global_step)]. *)
Definition checkpoint_name (global_epoch global_step : Z) : string :=
  "checkpoint_" +:+ pretty global_epoch +:+ "_" +:+ pretty global_step +:+ ".pt".

(** [LambdaLR.step()] for the schedule of [MarginTrainer]: the counters
    advance by one and the rate [base_lr * lr_lambda(last_epoch)] is written
    into the optimizer. *)
Definition LambdaLR_step {G} (sch : LambdaLR) (opt : SGD G) : LambdaLR * SGD G :=
  let epoch := (last_epoch sch + 1)%Z in
  let rate := (base_lr sch * Schedule.lr_lambda epoch)%Q in
  ({| base_lr := base_lr sch; last_epoch := epoch; last_lr := rate;
      step_count := (step_count sch + 1)%Z |},
   {| lr := rate; momentum := momentum opt; weight_decay := weight_decay opt;
      momentum_buffer := momentum_buffer opt |}).

(** The constructor of [LambdaLR]: the optimizer's rate becomes the base
    rate and one initial step is made from [last_epoch = -1]. *)
Definition LambdaLR_init {G} (opt : SGD G) : LambdaLR * SGD G :=
  LambdaLR_step
    {| base_lr := lr opt; last_epoch := -1; last_lr := lr opt; step_count := 0 |}
    opt.

(** The characters of a string all satisfy [P]. *)
Fixpoint string_forall (P : ascii → bool) (s : string) : bool :=
  match s with
  | EmptyString => true
  | String c s' => P c && string_forall P s'
  end.

(** The characters of a decimal integer as [format] prints it. *)
Definition sign_or_digit (c : ascii) : bool :=
  bool_decide (c ∈ ["-"; "0"; "1"; "2"; "3"; "4"; "5"; "6"; "7"; "8"; "9"]%char).

Module MarginTrainer.
Section WithTorch.
Context `{Torch}.

(** The values a checkpoint dictionary holds. *)
Inductive PyObj :=
| PyInt (z : Z)
| NetStateDict (d : NetState)
| OptStateDict (d : OptState)
| CritStateDict (d : CritState)
| LambdaLRStateDict (d : LambdaLR)
| SchedStateDict (d : SchedState).

(** What can be passed as [criterion] to the constructor. *)
Inductive CriterionObj :=
| CombinedMarginLoss (parameters : CritState)
| CrossEntropyLoss (f : Output → list Z → Q)
| PyNone
| OtherObject (class_name : string).

Record state := {
  network : NetState;
  training : bool;
  net_grad : option NetGrad;
  optimizer : OptState;
  scheduler : option SchedState;
  criterion : CritState;
  crit_grad : option CritGrad;
  opt_criterion : SGD CritGrad;
  scheduler_criterion : LambdaLR;
  start_epoch : PyObj;
  global_step : PyObj;
  log : list Event;
}.

Definition set_network (v : NetState) (s : state) : state :=
  {| network := v; training := training s; net_grad := net_grad s;
     optimizer := optimizer s; scheduler := scheduler s;
     criterion := criterion s; crit_grad := crit_grad s;
     opt_criterion := opt_criterion s;
     scheduler_criterion := scheduler_criterion s;
     start_epoch := start_epoch s; global_step := global_step s;
     log := log s |}.
Definition set_training (v : bool) (s : state) : state :=
  {| network := network s; training := v; net_grad := net_grad s;
     optimizer := optimizer s; scheduler := scheduler s;
     criterion := criterion s; crit_grad := crit_grad s;
     opt_criterion := opt_criterion s;
     scheduler_criterion := scheduler_criterion s;
     start_epoch := start_epoch s; global_step := global_step s;
     log := log s |}.
Definition set_net_grad (v : option NetGrad) (s : state) : state :=
  {| network := network s; training := training s; net_grad := v;
     optimizer := optimizer s; scheduler := scheduler s;
     criterion := criterion s; crit_grad := crit_grad s;
     opt_criterion := opt_criterion s;
     scheduler_criterion := scheduler_criterion s;
     start_epoch := start_epoch s; global_step := global_step s;
     log := log s |}.
Definition set_optimizer (v : OptState) (s : state) : state :=
  {| network := network s; training := training s; net_grad := net_grad s;
     optimizer := v; scheduler := scheduler s; criterion := criterion s;
     crit_grad := crit_grad s; opt_criterion := opt_criterion s;
     scheduler_criterion := scheduler_criterion s;
     start_epoch := start_epoch s; global_step := global_step s;
     log := log s |}.
Definition set_scheduler (v : option SchedState) (s : state) : state :=
  {| network := network s; training := training s; net_grad := net_grad s;
     optimizer := optimizer s; scheduler := v; criterion := criterion s;
     crit_grad := crit_grad s; opt_criterion := opt_criterion s;
     scheduler_criterion := scheduler_criterion s;
     start_epoch := start_epoch s; global_step := global_step s;
     log := log s |}.
Definition set_criterion (v : CritState) (s : state) : state :=
  {| network := network s; training := training s; net_grad := net_grad s;
     optimizer := optimizer s; scheduler := scheduler s; criterion := v;
     crit_grad := crit_grad s; opt_criterion := opt_criterion s;
     scheduler_criterion := scheduler_criterion s;
     start_epoch := start_epoch s; global_step := global_step s;
     log := log s |}.
Definition set_crit_grad (v : option CritGrad) (s : state) : state :=
  {| network := network s; training := training s; net_grad := net_grad s;
     optimizer := optimizer s; scheduler := scheduler s;
     criterion := criterion s; crit_grad := v;
     opt_criterion := opt_criterion s;
     scheduler_criterion := scheduler_criterion s;
     start_epoch := start_epoch s; global_step := global_step s;
     log := log s |}.
Definition set_opt_criterion (v : SGD CritGrad) (s : state) : state :=
  {| network := network s; training := training s; net_grad := net_grad s;
     optimizer := optimizer s; scheduler := scheduler s;
     criterion := criterion s; crit_grad := crit_grad s; opt_criterion := v;
     scheduler_criterion := scheduler_criterion s;
     start_epoch := start_epoch s; global_step := global_step s;
     log := log s |}.
Definition set_scheduler_criterion (v : LambdaLR) (s : state) : state :=
  {| network := network s; training := training s; net_grad := net_grad s;
     optimizer := optimizer s; scheduler := scheduler s;
     criterion := criterion s; crit_grad := crit_grad s;
     opt_criterion := opt_criterion s; scheduler_criterion := v;
     start_epoch := start_epoch s; global_step := global_step s;
     log := log s |}.
Definition set_start_epoch (v : PyObj) (s : state) : state :=
  {| network := network s; training := training s; net_grad := net_grad s;
     optimizer := optimizer s; scheduler := scheduler s;
     criterion := criterion s; crit_grad := crit_grad s;
     opt_criterion := opt_criterion s;
     scheduler_criterion := scheduler_criterion s; start_epoch := v;
     global_step := global_step s; log := log s |}.
Definition set_global_step (v : PyObj) (s : state) : state :=
  {| network := network s; training := training s; net_grad := net_grad s;
     optimizer := optimizer s; scheduler := scheduler s;
     criterion := criterion s; crit_grad := crit_grad s;
     opt_criterion := opt_criterion s;
     scheduler_criterion := scheduler_criterion s;
     start_epoch := start_epoch s; global_step := v; log := log s |}.
Definition emit (ev : Event) (s : state) : state :=
  {| network := network s; training := training s; net_grad := net_grad s;
     optimizer := optimizer s; scheduler := scheduler s;
     criterion := criterion s; crit_grad := crit_grad s;
     opt_criterion := opt_criterion s;
     scheduler_criterion := scheduler_criterion s;
     start_epoch := start_epoch s; global_step := global_step s;
     log := log s ++ [ev] |}.

(** The base class [TorchTrainer] (module [utils.torch.trainer]) is not part
    of [src/trainer.py].  [TorchTrainer_init] stands for
    the call of [super().__init__] on the keyword arguments together with
    the driver's configuration: it raises, or it provides the attributes
    that [MarginTrainer] reads, the network optimizer and the optional
    schedule among them. *)
Record TorchTrainer := {
  base_optimizer : OptState;
  base_scheduler : option SchedState;
  base_start_epoch : PyObj;
  base_global_step : PyObj;
}.

Class Driver := {
  Kwargs : Type;
  TorchTrainer_init : Kwargs → Error + TorchTrainer;
}.

Definition init `{Driver} (network : NetState) (criterion : CriterionObj)
    (kwargs : Kwargs) : Error + state :=
  match TorchTrainer_init kwargs with
  | inl e => inl e
  | inr base =>
      match criterion with
      | CombinedMarginLoss parameters =>
          let sgd :=
            {| lr := 0.01; momentum := 0.9; weight_decay := 5e-4;
               momentum_buffer := None |} in
          let scheduled := LambdaLR_init sgd in
          inr {| network := network; training := true; net_grad := None;
                 optimizer := base_optimizer base;
                 scheduler := base_scheduler base;
                 criterion := parameters; crit_grad := None;
                 opt_criterion := scheduled.2;
                 scheduler_criterion := scheduled.1;
                 start_epoch := base_start_epoch base;
                 global_step := base_global_step base; log := [] |}
      | _ => inl (AssertionError "Criterion must be CombinedMarginLoss")
      end
  end.

Definition network_train : M state unit :=
  modify (λ s, emit EvTrainMode (set_training true s)).
Definition network_eval : M state unit :=
  modify (λ s, emit EvEvalMode (set_training false s)).

(** [self.optimizer.zero_grad()] and [self.opt_criterion.zero_grad()]. *)
Definition optimizer_zero_grad : M state unit :=
  modify (λ s, emit (EvZeroGrad NetworkOptimizer) (set_net_grad None s)).
Definition opt_criterion_zero_grad : M state unit :=
  modify (λ s, emit (EvZeroGrad CriterionOptimizer) (set_crit_grad None s)).

(** [self.network(input_ids, audio)]. *)
Definition network_call (input_ids : TokenIds) (audio : Audio) : M state Output :=
  s ← get;
  modify (emit EvForward);;
  mret (forward (training s) (network s) input_ids audio).

(** [self.criterion(embedding, label)], the pair (loss, logits). *)
Definition criterion_call (embedding : list (list Q)) (label : list Z)
  : M state (Q * list (list Q)) :=
  s ← get;
  modify (emit EvCriterion);;
  mret (margin_loss (criterion s) embedding label).

(** [loss.backward()]: both parameter sets are reached from the loss; the
    arguments stand for the graph that the loss tensor holds. *)
Definition loss_backward (input_ids : TokenIds) (audio : Audio) (label : list Z)
  : M state unit :=
  modify (λ s,
    let g := grad_margin (network s) (criterion s) input_ids audio label in
    emit EvBackward
      (set_crit_grad (accumulate crit_grad_add (crit_grad s) g.2)
         (set_net_grad (accumulate net_grad_add (net_grad s) g.1) s))).

(** [self.optimizer.step()] and [self.opt_criterion.step()]. *)
Definition optimizer_step : M state unit :=
  modify (λ s,
    let stepped := opt_step (optimizer s) (network s) (net_grad s) in
    emit (EvStep NetworkOptimizer)
      (set_optimizer stepped.1 (set_network stepped.2 s))).
Definition opt_criterion_step : M state unit :=
  modify (λ s,
    let stepped := sgd_step (opt_criterion s) (criterion s) (crit_grad s) in
    emit (EvStep CriterionOptimizer)
      (set_opt_criterion stepped.1 (set_criterion stepped.2 s))).

Definition train_step (batch : TokenIds * Audio * list Z) : M state StepResult :=
  network_train;;
  optimizer_zero_grad;;
  opt_criterion_zero_grad;;
  let '(input_ids, audio, label) := batch in
  output ← network_call input_ids audio;
  loss_logits ← criterion_call (out1 output) label;
  loss_backward input_ids audio label;;
  optimizer_step;;
  opt_criterion_step;;
  accuracy ← lift (accuracy loss_logits.2 label);
  mret {| loss := loss_logits.1; acc := accuracy |}.

Definition test_step (batch : TokenIds * Audio * list Z) : M state StepResult :=
  network_eval;;
  let '(input_ids, audio, label) := batch in
  output ← network_call input_ids audio;
  loss_logits ← criterion_call (out1 output) label;
  accuracy ← lift (accuracy loss_logits.2 label);
  mret {| loss := loss_logits.1; acc := accuracy |}.

(** [self.scheduler.step()] and [self.scheduler_criterion.step()]. *)
Definition scheduler_step (sch : SchedState) : M state unit :=
  modify (λ s,
    let stepped := sched_step sch (optimizer s) in
    emit (EvSchedulerStep NetworkOptimizer)
      (set_optimizer stepped.2 (set_scheduler (Some stepped.1) s))).
Definition scheduler_criterion_step : M state unit :=
  modify (λ s,
    let stepped := LambdaLR_step (scheduler_criterion s) (opt_criterion s) in
    emit (EvSchedulerStep CriterionOptimizer)
      (set_opt_criterion stepped.2 (set_scheduler_criterion stepped.1 s))).

Definition lr_scheduler (step epoch : Z) : M state unit :=
  s ← get;
  match scheduler s with
  | Some sch => scheduler_step sch
  | None => mret ()
  end;;
  scheduler_criterion_step.

(** The file system as far as checkpoints go: the dictionary stored under
    each path.  [torch.save] pickles the dictionary, so the file holds a
    snapshot; [torch.load] raises on a path without a file. *)
Definition torch_save (checkpoint : gmap string PyObj) (ckpt_path : string)
    (fs : gmap string (gmap string PyObj)) : gmap string (gmap string PyObj) :=
  <[ckpt_path := checkpoint]> fs.

Definition torch_load (path : string) (fs : gmap string (gmap string PyObj))
  : Error + gmap string PyObj :=
  match fs !! path with
  | Some checkpoint => inr checkpoint
  | None => inl (FileNotFoundError path)
  end.

Definition save_all_states (path : string) (global_epoch global_step : Z)
    (fs : gmap string (gmap string PyObj))
  : M state (string * gmap string (gmap string PyObj)) :=
  s ← get;
  let checkpoint : gmap string PyObj :=
    <["epoch" := PyInt global_epoch]>
    (<["global_step" := PyInt global_step]>
    (<["state_dict_network" := NetStateDict (network s)]>
    (<["state_optimizer" := OptStateDict (optimizer s)]>
    (<["state_criterion" := CritStateDict (criterion s)]>
    (<["state_lr_scheduler_criterion" :=
         LambdaLRStateDict (scheduler_criterion s)]> ∅))))) in
  let checkpoint :=
    match scheduler s with
    | Some sch => <["state_lr_scheduler" := SchedStateDict sch]> checkpoint
    | None => checkpoint
    end in
  let ckpt_path := path_join path (checkpoint_name global_epoch global_step) in
  mret (ckpt_path, torch_save checkpoint ckpt_path fs).

(** The dictionary that [save_all_states] builds from a trainer. *)
Definition checkpoint_dict (s : state) (global_epoch global_step : Z)
  : gmap string PyObj :=
  let checkpoint : gmap string PyObj :=
    <["epoch" := PyInt global_epoch]>
    (<["global_step" := PyInt global_step]>
    (<["state_dict_network" := NetStateDict (network s)]>
    (<["state_optimizer" := OptStateDict (optimizer s)]>
    (<["state_criterion" := CritStateDict (criterion s)]>
    (<["state_lr_scheduler_criterion" :=
         LambdaLRStateDict (scheduler_criterion s)]> ∅))))) in
  match scheduler s with
  | Some sch => <["state_lr_scheduler" := SchedStateDict sch]> checkpoint
  | None => checkpoint
  end.

(** [dict_checkpoint[key]]. *)
Definition getitem (dict_checkpoint : gmap string PyObj) (key : string)
  : M state PyObj :=
  match dict_checkpoint !! key with
  | Some v => mret v
  | None => raise (KeyError key)
  end.

(** The [load_state_dict] methods: each replaces the state of its object by
    the dictionary it is given and raises on a value that is not a state
    dictionary of its kind. *)
Definition network_load_state_dict (v : PyObj) : M state unit :=
  match v with
  | NetStateDict d => modify (set_network d)
  | _ => raise (TypeError "network.load_state_dict")
  end.
Definition optimizer_load_state_dict (v : PyObj) : M state unit :=
  match v with
  | OptStateDict d => modify (set_optimizer d)
  | _ => raise (TypeError "optimizer.load_state_dict")
  end.
Definition criterion_load_state_dict (v : PyObj) : M state unit :=
  match v with
  | CritStateDict d => modify (set_criterion d)
  | _ => raise (TypeError "criterion.load_state_dict")
  end.
Definition scheduler_criterion_load_state_dict (v : PyObj) : M state unit :=
  match v with
  | LambdaLRStateDict d => modify (set_scheduler_criterion d)
  | _ => raise (TypeError "scheduler_criterion.load_state_dict")
  end.
Definition scheduler_load_state_dict (v : PyObj) : M state unit :=
  match v with
  | SchedStateDict d => modify (set_scheduler (Some d))
  | _ => raise (TypeError "scheduler.load_state_dict")
  end.

Definition load_all_states (path : string) (device : string)
    (fs : gmap string (gmap string PyObj)) : M state unit :=
  dict_checkpoint ← lift (torch_load path fs);
  v ← getitem dict_checkpoint "epoch";
  modify (set_start_epoch v);;
  v ← getitem dict_checkpoint "global_step";
  modify (set_global_step v);;
  v ← getitem dict_checkpoint "state_dict_network";
  network_load_state_dict v;;
  v ← getitem dict_checkpoint "state_optimizer";
  optimizer_load_state_dict v;;
  v ← getitem dict_checkpoint "state_criterion";
  criterion_load_state_dict v;;
  v ← getitem dict_checkpoint "state_lr_scheduler_criterion";
  scheduler_criterion_load_state_dict v;;
  s ← get;
  match scheduler s with
  | Some _ =>
      v ← getitem dict_checkpoint "state_lr_scheduler";
      scheduler_load_state_dict v
  | None => mret ()
  end.

(** The keys that [load_all_states] reads, in the order read. *)
Definition expected_keys (s : state) : list string :=
  ["epoch"; "global_step"; "state_dict_network"; "state_optimizer";
   "state_criterion"; "state_lr_scheduler_criterion"]
  ++ match scheduler s with
     | Some _ => ["state_lr_scheduler"]
     | None => []
     end.

(** The state in which [train_step] leaves the trainer. *)
Definition after_train_step (s : state) (input_ids : TokenIds)
    (audio : Audio) (label : list Z) : state :=
  let g := grad_margin (network s) (criterion s)
             input_ids audio label in
  let stepped := opt_step (optimizer s) (network s)
                   (Some g.1) in
  let stepped_c := sgd_step (opt_criterion s)
                     (criterion s) (Some g.2) in
  {| network := stepped.2;
     training := true;
     net_grad := Some g.1;
     optimizer := stepped.1;
     scheduler := scheduler s;
     criterion := stepped_c.2;
     crit_grad := Some g.2;
     opt_criterion := stepped_c.1;
     scheduler_criterion := scheduler_criterion s;
     start_epoch := start_epoch s;
     global_step := global_step s;
     log :=
       log s ++
       [EvTrainMode; EvZeroGrad NetworkOptimizer; EvZeroGrad CriterionOptimizer;
        EvForward; EvCriterion; EvBackward; EvStep NetworkOptimizer;
        EvStep CriterionOptimizer] |}.

(** The state in which [test_step] leaves the trainer. *)
Definition after_test_step (s : state) : state :=
  {| network := network s;
     training := false;
     net_grad := net_grad s;
     optimizer := optimizer s;
     scheduler := scheduler s;
     criterion := criterion s;
     crit_grad := crit_grad s;
     opt_criterion := opt_criterion s;
     scheduler_criterion := scheduler_criterion s;
     start_epoch := start_epoch s;
     global_step := global_step s;
     log :=
       log s ++ [EvEvalMode; EvForward; EvCriterion] |}.

(** The components that [load_all_states] has not touched when it fails on
    the key at position [i] of [expected_keys]: those restored from that key
    or from a later one, and those it never writes. *)
Definition unchanged_from (i : nat) (s s' : state) : Prop :=
  (i ≤ 0 → start_epoch s' = start_epoch s) ∧
  (i ≤ 1 → global_step s' = global_step s) ∧
  (i ≤ 2 → network s' = network s) ∧
  (i ≤ 3 → optimizer s' = optimizer s) ∧
  (i ≤ 4 → criterion s' = criterion s) ∧
  (i ≤ 5 → scheduler_criterion s' = scheduler_criterion s) ∧
  (i ≤ 6 → scheduler s' = scheduler s) ∧
  training s' = training s ∧ net_grad s' = net_grad s ∧
  crit_grad s' = crit_grad s ∧ opt_criterion s' = opt_criterion s ∧
  log s' = log s.

(** The schedule hook called once per pair of arguments, as the driver
    does at the end of every epoch. *)
Fixpoint lr_scheduler_calls (args : list (Z * Z)) : M state unit :=
  match args with
  | [] => mret ()
  | (step, epoch) :: rest => lr_scheduler step epoch;; lr_scheduler_calls rest
  end.

End WithTorch.
End MarginTrainer.

(** ** A small implementation of the collaborators

    One weight [w] for the network and one scale [m] for the margin loss,
    over batches of one audio number per element.  The class logits of an
    element [a] are [[w * a; 1]], its embedding is [[a; w]]; the margin
    loss returns [m] as the loss and the embedding scaled by [m] as the
    logits.  It is used to run the trainers on concrete inputs. *)
Module Toy.

#[local] Open Scope Q_scope.

Definition toy_forward (training : bool) (w : Q) (input_ids : list Z)
    (audio : list Q) : Output :=
  {| out0 := map (λ a, [w * a; 1]) audio;
     out1 := map (λ a, [a; w]) audio |}.

Definition toy_margin_loss (m : Q) (embedding : list (list Q)) (label : list Z)
  : Q * list (list Q) :=
  (m, map (map (Qmult m)) embedding).

Definition toy_opt_step (rate w : Q) (g : option Q) : Q * Q :=
  match g with
  | Some g => (rate, w - rate * g)
  | None => (rate, w)
  end.

Definition toy_sgd_step (o : SGD Q) (m : Q) (g : option Q) : SGD Q * Q :=
  match g with
  | Some g =>
      ({| lr := lr o; momentum := momentum o; weight_decay := weight_decay o;
          momentum_buffer := Some g |}, m - lr o * g)
  | None => (o, m)
  end.

#[export] Instance toy : Torch := {|
  TokenIds := list Z;
  Audio := list Q;
  NetState := Q;
  NetGrad := Q;
  forward := toy_forward;
  CritState := Q;
  CritGrad := Q;
  margin_loss := toy_margin_loss;
  grad_fixed := λ _ _ _ _ _, 1;
  grad_margin := λ _ _ _ _ _, (1, 1);
  net_grad_add := Qplus;
  crit_grad_add := Qplus;
  OptState := Q;
  opt_step := toy_opt_step;
  sgd_step := toy_sgd_step;
  SchedState := Z;
  sched_step := λ n rate, ((n + 1)%Z, rate * 0.5);
|}.

#[export] Instance toy_driver : MarginTrainer.Driver := {|
  MarginTrainer.Kwargs := unit;
  MarginTrainer.TorchTrainer_init := λ _,
    inr {| MarginTrainer.base_optimizer := 0.1 : @OptState toy;
           MarginTrainer.base_scheduler := None;
           MarginTrainer.base_start_epoch := MarginTrainer.PyInt 0;
           MarginTrainer.base_global_step := MarginTrainer.PyInt 0 |};
|}.

(** A criterion for [Trainer] that reads the embedding view of the output:
    the sum of its entries. *)
Definition embedding_sum (output : Output) (label : list Z) : Q :=
  foldr (λ row total, foldr Qplus 0 row + total) 0 (out1 output).

Definition trainer (w : Q) : Trainer.state :=
  {| Trainer.network := w; Trainer.training := true; Trainer.grad := None;
     Trainer.criterion := Some embedding_sum; Trainer.optimizer := 0.1;
     Trainer.log := [] |}.

(** A trainer built without a criterion, with a gradient left from an
    earlier step. *)
Definition trainer_without_criterion : Trainer.state :=
  {| Trainer.network := 2; Trainer.training := false; Trainer.grad := Some 1;
     Trainer.criterion := None; Trainer.optimizer := 0.1;
     Trainer.log := [] |}.

(** A margin trainer as the constructor builds it, with weight [w], margin
    scale [m] and an optional network schedule. *)
Definition margin_trainer (w m : Q) (sch : option Z) : MarginTrainer.state :=
  {| MarginTrainer.network := w; MarginTrainer.training := true;
     MarginTrainer.net_grad := None; MarginTrainer.optimizer := 0.1;
     MarginTrainer.scheduler := sch; MarginTrainer.criterion := m;
     MarginTrainer.crit_grad := None;
     MarginTrainer.opt_criterion :=
       {| lr := 0.01; momentum := 0.9; weight_decay := 5e-4;
          momentum_buffer := None |};
     MarginTrainer.scheduler_criterion :=
       {| base_lr := 0.01; last_epoch := 0; last_lr := 0.01; step_count := 1 |};
     MarginTrainer.start_epoch := MarginTrainer.PyInt 0;
     MarginTrainer.global_step := MarginTrainer.PyInt 0;
     MarginTrainer.log := [] |}.

(** The trainer [margin_trainer w m sch] with another state of the
    loss-function optimizer: a decayed rate and a momentum buffer. *)
Definition margin_trainer_in_training (w m : Q) (sch : option Z)
  : MarginTrainer.state :=
  MarginTrainer.set_crit_grad (Some 1)
    (MarginTrainer.set_opt_criterion
       {| lr := 0.001; momentum := 0.9; weight_decay := 5e-4;
          momentum_buffer := Some 1 |}
       (margin_trainer w m sch)).

(** A checkpoint file that lacks the key ["state_criterion"]. *)
Definition truncated_checkpoint : gmap string MarginTrainer.PyObj :=
  <["epoch" := MarginTrainer.PyInt 3]>
  (<["global_step" := MarginTrainer.PyInt 120]>
  (<["state_dict_network" := MarginTrainer.NetStateDict (7 : @NetState toy)]>
  (<["state_optimizer" := MarginTrainer.OptStateDict (0.5 : @OptState toy)]> ∅))).

End Toy.

(** ** Proof automation *)

(** Runs a method body on a state given by its fields: unfolds the
    sequencing, the setters and the projections. *)
Ltac run_body :=
  cbv [mbind mret M_bind M_ret bind ret modify get lift raise accumulate
       Trainer.train_step Trainer.test_step Trainer.network_train
       Trainer.network_eval Trainer.optimizer_zero_grad Trainer.network_call
       Trainer.criterion_call Trainer.loss_backward Trainer.optimizer_step
       Trainer.emit Trainer.set_network Trainer.set_training Trainer.set_grad
       Trainer.set_optimizer
       Trainer.network Trainer.training Trainer.grad Trainer.criterion
       Trainer.optimizer Trainer.log
       MarginTrainer.train_step MarginTrainer.test_step
       MarginTrainer.network_train MarginTrainer.network_eval
       MarginTrainer.optimizer_zero_grad MarginTrainer.opt_criterion_zero_grad
       MarginTrainer.network_call MarginTrainer.criterion_call
       MarginTrainer.loss_backward MarginTrainer.optimizer_step
       MarginTrainer.opt_criterion_step
       MarginTrainer.lr_scheduler MarginTrainer.scheduler_step
       MarginTrainer.scheduler_criterion_step
       MarginTrainer.load_all_states MarginTrainer.save_all_states
       MarginTrainer.getitem MarginTrainer.torch_load MarginTrainer.torch_save
       MarginTrainer.network_load_state_dict
       MarginTrainer.optimizer_load_state_dict
       MarginTrainer.criterion_load_state_dict
       MarginTrainer.scheduler_criterion_load_state_dict
       MarginTrainer.scheduler_load_state_dict
       MarginTrainer.emit MarginTrainer.set_network MarginTrainer.set_training
       MarginTrainer.set_net_grad MarginTrainer.set_optimizer
       MarginTrainer.set_scheduler MarginTrainer.set_criterion
       MarginTrainer.set_crit_grad MarginTrainer.set_opt_criterion
       MarginTrainer.set_scheduler_criterion MarginTrainer.set_start_epoch
       MarginTrainer.set_global_step
       MarginTrainer.network MarginTrainer.training MarginTrainer.net_grad
       MarginTrainer.optimizer MarginTrainer.scheduler MarginTrainer.criterion
       MarginTrainer.crit_grad MarginTrainer.opt_criterion
       MarginTrainer.scheduler_criterion MarginTrainer.start_epoch
       MarginTrainer.global_step MarginTrainer.log fst snd].

(** Names the results of the collaborators in a run and compares. *)
Ltac finish_run :=
  repeat match goal with
         | |- context [match ?x with (_, _) => _ end] => destruct x
         | |- context [match ?x with inl _ => _ | inr _ => _ end] => destruct x
         end;
  rewrite <- ?app_assoc; reflexivity.

(** Finishes a failed run of [load_all_states]: names the error and the
    state at the raise and compares that state with the initial one. *)
Ltac failed_load :=
  eexists _, _; split; [reflexivity|];
  unfold MarginTrainer.unchanged_from; run_body;
  repeat split; intros; (reflexivity || lia).

(** Reads the entry [key] of the checkpoint [ck]: the branches in which the
    run fails are closed, the branch in which it goes on is left. *)
Ltac read_key ck key :=
  destruct (ck !! key) as [[]|] eqn:?; run_body;
  try congruence; try failed_load.

(** The same for an entry that is stored as it is, whatever its kind. *)
Ltac read_value ck key :=
  destruct (ck !! key) as [?|] eqn:?; run_body;
  try congruence; try failed_load.

(** * Properties *)

(** ** The schedule of the loss-function optimizer *)

Lemma lr_lambda_from_minus_one (epoch : Z) :
  (-1 ≤ epoch)%Z →
  Schedule.lr_lambda epoch
  = (0.1 ^ Z.of_nat (length (filter (λ m, (m - 1 ≤ epoch)%Z) Schedule.milestones)))%Q.
Proof.
  intros Hge. unfold Schedule.lr_lambda.
  destruct (decide (epoch < -1)%Z) as [Hlt|_]; [lia|reflexivity].
Qed.

Lemma milestones_counted (epoch : Z) :
  length (filter (λ m, (m - 1 ≤ epoch)%Z) Schedule.milestones)
  = Schedule.milestones_passed epoch.
Proof.
  unfold Schedule.milestones, Schedule.milestones_passed.
  rewrite !filter_cons, filter_nil.
  repeat case_decide; reflexivity.
Qed.

(** C4: for every non-negative epoch index the multiplier is 0.1 raised to
    the number of milestones [m] of {8, 14, 20, 25} with [m - 1 <= epoch]. *)
Theorem lr_lambda_decay_law (epoch : Z) :
  (0 ≤ epoch)%Z → Schedule.lr_lambda epoch = Schedule.decay_law epoch.
Proof.
  intros Hge. rewrite lr_lambda_from_minus_one by lia.
  unfold Schedule.decay_law. by rewrite milestones_counted.
Qed.

Lemma lr_lambda_decay_law_witness :
  (0 ≤ 13)%Z ∧ Schedule.lr_lambda 13 = Schedule.decay_law 13.
Proof. split; [lia | apply (lr_lambda_decay_law 13); lia]. Defined.

(** C3 as stated fails at epoch 7: the table gives 1.0 there, the code
    0.1, since the milestone 8 satisfies [8 - 1 <= 7]. *)
Lemma lr_lambda_differs_from_table_at_7 :
  (Schedule.claimed_table 7 == 1.0)%Q ∧ (Schedule.lr_lambda 7 == 0.1)%Q ∧
  ¬ (Schedule.lr_lambda 7 == Schedule.claimed_table 7)%Q.
Proof. split; [reflexivity|]. split; [reflexivity|]. intros Heq. discriminate Heq. Qed.

(** C3, amended: the multiplier is piecewise constant in the epoch index,
    with the value 1.0 on 0..6, 0.1 on 7..12, 0.01 on 13..18, 0.001 on
    19..23 and 0.0001 from 24 on: each step is taken one epoch before the
    milestone. *)
Theorem lr_lambda_piecewise (epoch : Z) :
  ((0 ≤ epoch ≤ 6)%Z → (Schedule.lr_lambda epoch == 1.0)%Q) ∧
  ((7 ≤ epoch ≤ 12)%Z → (Schedule.lr_lambda epoch == 0.1)%Q) ∧
  ((13 ≤ epoch ≤ 18)%Z → (Schedule.lr_lambda epoch == 0.01)%Q) ∧
  ((19 ≤ epoch ≤ 23)%Z → (Schedule.lr_lambda epoch == 0.001)%Q) ∧
  ((24 ≤ epoch)%Z → (Schedule.lr_lambda epoch == 0.0001)%Q).
Proof.
  repeat split; intros Hrange;
    rewrite lr_lambda_from_minus_one, milestones_counted by lia;
    unfold Schedule.milestones_passed;
    repeat case_decide; try lia; reflexivity.
Qed.

Lemma lr_lambda_piecewise_witness :
  (Schedule.lr_lambda 6 == 1.0)%Q ∧ (Schedule.lr_lambda 7 == 0.1)%Q ∧
  (Schedule.lr_lambda 13 == 0.01)%Q ∧ (Schedule.lr_lambda 19 == 0.001)%Q ∧
  (Schedule.lr_lambda 24 == 0.0001)%Q.
Proof.
  split; [apply (lr_lambda_piecewise 6); lia|].
  split; [apply (lr_lambda_piecewise 7); lia|].
  split; [apply (lr_lambda_piecewise 13); lia|].
  split; [apply (lr_lambda_piecewise 19); lia|].
  apply (lr_lambda_piecewise 24); lia.
Defined.

(** ** Accuracy *)

Lemma torch_max_dim1_length logits preds :
  torch_max_dim1 logits = inr preds → length preds = length logits.
Proof.
  revert preds. induction logits as [|row rest IH]; intros preds Hmax; simpl in Hmax.
  - by inversion Hmax.
  - destruct (argmax row) as [e|p]; [discriminate|].
    destruct (torch_max_dim1 rest) as [e|ps]; [discriminate|].
    inversion Hmax; subst. simpl. f_equal. by apply IH.
Qed.

Lemma torch_max_dim1_hits logits preds (label : list Z) :
  torch_max_dim1 logits = inr preds →
  zip_with Z.eqb preds label = zip_with correct logits label.
Proof.
  revert preds label.
  induction logits as [|row rest IH]; intros preds label Hmax; simpl in Hmax.
  - by inversion Hmax.
  - destruct (argmax row) as [e|p] eqn:Hrow; [discriminate|].
    destruct (torch_max_dim1 rest) as [e|ps]; [discriminate|].
    inversion Hmax; subst.
    destruct label as [|l label]; [reflexivity|].
    simpl. unfold correct at 1. rewrite Hrow. f_equal. by apply IH.
Qed.

Lemma count_true_le (bs : list bool) : (count_true bs ≤ length bs)%nat.
Proof. unfold count_true. apply length_filter. Qed.

Lemma fraction_in_unit_interval (hits len : nat) :
  (hits ≤ len)%nat → (0 < len)%nat →
  (0 <= Z.of_nat hits # Pos.of_nat len)%Q ∧ (Z.of_nat hits # Pos.of_nat len <= 1)%Q.
Proof.
  intros Hle Hpos. unfold Qle; simpl.
  assert (Z.pos (Pos.of_nat len) = Z.of_nat len) as ->.
  { rewrite <- (Nat2Pos.id len) at 2 by lia. by rewrite positive_nat_Z. }
  lia.
Qed.

(** For a batch with at least one element and one row of logits per label
    the accuracy lines do not raise and give the fraction of correct
    predictions. *)
Lemma accuracy_fraction logits (label : list Z) :
  length logits = length label → label ≠ [] →
  ∀ a, accuracy logits label = inr a → a = Fin (fraction_correct logits label).
Proof.
  intros Hlen Hne a. unfold accuracy.
  destruct (torch_max_dim1 logits) as [e|preds] eqn:Hmax; [discriminate|].
  pose proof (torch_max_dim1_length _ _ Hmax) as Hpreds.
  unfold eq_broadcast. rewrite decide_True by congruence.
  intros [= <-]. rewrite (torch_max_dim1_hits _ _ label Hmax).
  unfold mean_float, fraction_correct.
  assert (length (zip_with correct logits label) = length label) as Hzip.
  { rewrite length_zip_with. lia. }
  destruct (zip_with correct logits label) as [|b bs] eqn:Hhits.
  - destruct label; [done|discriminate].
  - by rewrite <- Hzip.
Qed.

Lemma fraction_correct_range logits (label : list Z) :
  length logits = length label → label ≠ [] →
  (0 <= fraction_correct logits label)%Q ∧ (fraction_correct logits label <= 1)%Q.
Proof.
  intros Hlen Hne. unfold fraction_correct.
  apply fraction_in_unit_interval.
  - etrans; [apply count_true_le|]. rewrite length_zip_with. lia.
  - destruct label; [done|simpl; lia].
Qed.

(** ** The step functions of Trainer *)

Section TrainerSteps.
Context `{Torch}.

(** What [Trainer.train_step] does with a configured criterion. *)
Lemma Trainer_train_step_run (s : Trainer.state) c input_ids audio label :
  Trainer.criterion s = Some c →
  Trainer.train_step (input_ids, audio, label) s =
    let output := forward true (Trainer.network s) input_ids audio in
    let g := grad_fixed c (Trainer.network s) input_ids audio label in
    let stepped := opt_step (Trainer.optimizer s) (Trainer.network s) (Some g) in
    (match accuracy (out0 output) label with
     | inl e => inl e
     | inr a => inr {| loss := c output label; acc := a |}
     end,
     {| Trainer.network := stepped.2; Trainer.training := true;
        Trainer.grad := Some g; Trainer.criterion := Some c;
        Trainer.optimizer := stepped.1;
        Trainer.log :=
          Trainer.log s ++
          [EvTrainMode; EvZeroGrad NetworkOptimizer; EvForward; EvCriterion;
           EvBackward; EvStep NetworkOptimizer] |}).
Proof.
  destruct s as [n tr g cr o lg]. simpl. intros ->.
  run_body. finish_run.
Qed.

(** What [Trainer.test_step] does with a configured criterion. *)
Lemma Trainer_test_step_run (s : Trainer.state) c input_ids audio label :
  Trainer.criterion s = Some c →
  Trainer.test_step (input_ids, audio, label) s =
    let output := forward false (Trainer.network s) input_ids audio in
    (match accuracy (out0 output) label with
     | inl e => inl e
     | inr a => inr {| loss := c output label; acc := a |}
     end,
     {| Trainer.network := Trainer.network s; Trainer.training := false;
        Trainer.grad := Trainer.grad s; Trainer.criterion := Some c;
        Trainer.optimizer := Trainer.optimizer s;
        Trainer.log := Trainer.log s ++ [EvEvalMode; EvForward; EvCriterion] |}).
Proof.
  destruct s as [n tr g cr o lg]. simpl. intros ->.
  run_body. finish_run.
Qed.

(** Without a criterion both steps raise at the call of the criterion. *)
Lemma Trainer_test_step_no_criterion (s : Trainer.state) batch :
  Trainer.criterion s = None →
  Trainer.test_step batch s =
    (inl (TypeError "'NoneType' object is not callable"),
     {| Trainer.network := Trainer.network s; Trainer.training := false;
        Trainer.grad := Trainer.grad s; Trainer.criterion := None;
        Trainer.optimizer := Trainer.optimizer s;
        Trainer.log := Trainer.log s ++ [EvEvalMode; EvForward] |}).
Proof.
  destruct batch as [[input_ids audio] label].
  destruct s as [n tr g cr o lg]. simpl. intros ->.
  run_body. finish_run.
Qed.

Lemma Trainer_train_step_no_criterion (s : Trainer.state) batch :
  Trainer.criterion s = None →
  (Trainer.train_step batch s).1 =
    inl (TypeError "'NoneType' object is not callable").
Proof.
  destruct batch as [[input_ids audio] label].
  destruct s as [n tr g cr o lg]. simpl. intros ->.
  run_body. reflexivity.
Qed.

End TrainerSteps.

(** ** The step functions of MarginTrainer *)

Section MarginTrainerSteps.
Context `{Torch}.

Lemma MarginTrainer_train_step_run (s : MarginTrainer.state) input_ids audio label :
  MarginTrainer.train_step (input_ids, audio, label) s =
    let output := forward true (MarginTrainer.network s) input_ids audio in
    let out := margin_loss (MarginTrainer.criterion s) (out1 output) label in
    (match accuracy out.2 label with
     | inl e => inl e
     | inr a => inr {| loss := out.1; acc := a |}
     end,
     MarginTrainer.after_train_step s input_ids audio label).
Proof.
  destruct s. unfold MarginTrainer.after_train_step. run_body. finish_run.
Qed.

Lemma MarginTrainer_test_step_run (s : MarginTrainer.state) input_ids audio label :
  MarginTrainer.test_step (input_ids, audio, label) s =
    let output := forward false (MarginTrainer.network s) input_ids audio in
    let out := margin_loss (MarginTrainer.criterion s) (out1 output) label in
    (match accuracy out.2 label with
     | inl e => inl e
     | inr a => inr {| loss := out.1; acc := a |}
     end,
     MarginTrainer.after_test_step s).
Proof.
  destruct s. unfold MarginTrainer.after_test_step. run_body. finish_run.
Qed.

End MarginTrainerSteps.

(** ** Claims on the step functions *)

(** C5 as stated fails: with the same criterion, the same [output[0]] and
    the same label, two trainers return different losses, in [train_step]
    and in [test_step]; the criterion is applied to the whole output and
    reads [output[1]] here. *)
Lemma Trainer_loss_is_not_a_function_of_out0 :
  let batch : list Z * list Q * list Z := ([5]%Z, [0%Q], [1]%Z) in
  out0 (Toy.toy_forward true 1 [5]%Z [0%Q]) = out0 (Toy.toy_forward true 2 [5]%Z [0%Q]) ∧
  Trainer.criterion (Toy.trainer 1) = Trainer.criterion (Toy.trainer 2) ∧
  (∃ r1 r2,
     (Trainer.train_step (H := Toy.toy) batch (Toy.trainer 1)).1 = inr r1 ∧
     (Trainer.train_step (H := Toy.toy) batch (Toy.trainer 2)).1 = inr r2 ∧
     ¬ (loss r1 == loss r2)%Q) ∧
  (∃ r1 r2,
     (Trainer.test_step (H := Toy.toy) batch (Toy.trainer 1)).1 = inr r1 ∧
     (Trainer.test_step (H := Toy.toy) batch (Toy.trainer 2)).1 = inr r2 ∧
     ¬ (loss r1 == loss r2)%Q).
Proof.
  cbv zeta. split; [reflexivity|]. split; [reflexivity|].
  split; eexists _, _;
    (split; [vm_compute; reflexivity|]);
    (split; [vm_compute; reflexivity|]);
    intros Heq; discriminate Heq.
Qed.

(** C5, amended: with a configured criterion, [train_step] and [test_step]
    of [Trainer] compute the loss by applying the criterion to the whole
    network output and the label; [output[0]] is what the accuracy is
    computed from.  The step returns unless the accuracy lines raise. *)
Theorem Trainer_loss_from_whole_output `{Torch} (s : Trainer.state) c
    input_ids audio label :
  Trainer.criterion s = Some c →
  (let output := forward true (Trainer.network s) input_ids audio in
   (Trainer.train_step (input_ids, audio, label) s).1 =
     match accuracy (out0 output) label with
     | inl e => inl e
     | inr a => inr {| loss := c output label; acc := a |}
     end) ∧
  (let output := forward false (Trainer.network s) input_ids audio in
   (Trainer.test_step (input_ids, audio, label) s).1 =
     match accuracy (out0 output) label with
     | inl e => inl e
     | inr a => inr {| loss := c output label; acc := a |}
     end).
Proof.
  intros Hc. split.
  - by rewrite (Trainer_train_step_run s c).
  - by rewrite (Trainer_test_step_run s c).
Qed.

Lemma Trainer_loss_from_whole_output_witness :
  (Trainer.train_step (H := Toy.toy) ([5]%Z, [0%Q], [1]%Z) (Toy.trainer 2)).1
  = inr {| loss := Toy.embedding_sum (Toy.toy_forward true 2 [5]%Z [0%Q]) [1]%Z;
           acc := Fin (1 # 1) |}.
Proof.
  exact (proj1 (Trainer_loss_from_whole_output (H := Toy.toy) (Toy.trainer 2)
                  Toy.embedding_sum [5]%Z [0%Q] [1]%Z eq_refl)).
Defined.

(** C6: [MarginTrainer.train_step] zeroes the gradients of both optimizers
    before the forward pass, obtains the loss and the re-projected logits
    from the margin criterion applied to [output[1]] and the label, makes
    one backward pass and then steps both optimizers: the calls are made in
    this order, the gradients held afterwards are those of this one pass,
    and each optimizer has stepped once on them. *)
Theorem MarginTrainer_train_step_order `{Torch} (s : MarginTrainer.state)
    input_ids audio label :
  let output := forward true (MarginTrainer.network s) input_ids audio in
  let out := margin_loss (MarginTrainer.criterion s) (out1 output) label in
  let g := grad_margin (MarginTrainer.network s) (MarginTrainer.criterion s)
             input_ids audio label in
  let run := MarginTrainer.train_step (input_ids, audio, label) s in
  MarginTrainer.log run.2 =
    MarginTrainer.log s ++
    [EvTrainMode; EvZeroGrad NetworkOptimizer; EvZeroGrad CriterionOptimizer;
     EvForward; EvCriterion; EvBackward; EvStep NetworkOptimizer;
     EvStep CriterionOptimizer] ∧
  MarginTrainer.training run.2 = true ∧
  MarginTrainer.net_grad run.2 = Some g.1 ∧
  MarginTrainer.crit_grad run.2 = Some g.2 ∧
  (MarginTrainer.optimizer run.2, MarginTrainer.network run.2) =
    opt_step (MarginTrainer.optimizer s) (MarginTrainer.network s) (Some g.1) ∧
  (MarginTrainer.opt_criterion run.2, MarginTrainer.criterion run.2) =
    sgd_step (MarginTrainer.opt_criterion s) (MarginTrainer.criterion s) (Some g.2) ∧
  run.1 = match accuracy out.2 label with
          | inl e => inl e
          | inr a => inr {| loss := out.1; acc := a |}
          end.
Proof.
  intros output out g run. subst run.
  rewrite MarginTrainer_train_step_run. unfold MarginTrainer.after_train_step. simpl.
  repeat split; try reflexivity; symmetry; apply surjective_pairing.
Qed.

(** C7: [test_step] of either trainer leaves the network parameters, the
    gradients and all optimizer and scheduler state as they are, and a
    second [test_step] on the same batch returns what the first one
    returned. *)
Theorem test_step_changes_nothing `{Torch} (batch : TokenIds * Audio * list Z) :
  (∀ s : Trainer.state,
     let first := Trainer.test_step batch s in
     let second := Trainer.test_step batch first.2 in
     first.1 = second.1 ∧
     Trainer.network first.2 = Trainer.network s ∧
     Trainer.grad first.2 = Trainer.grad s ∧
     Trainer.optimizer first.2 = Trainer.optimizer s) ∧
  (∀ s : MarginTrainer.state,
     let first := MarginTrainer.test_step batch s in
     let second := MarginTrainer.test_step batch first.2 in
     first.1 = second.1 ∧
     MarginTrainer.network first.2 = MarginTrainer.network s ∧
     MarginTrainer.criterion first.2 = MarginTrainer.criterion s ∧
     MarginTrainer.net_grad first.2 = MarginTrainer.net_grad s ∧
     MarginTrainer.crit_grad first.2 = MarginTrainer.crit_grad s ∧
     MarginTrainer.optimizer first.2 = MarginTrainer.optimizer s ∧
     MarginTrainer.opt_criterion first.2 = MarginTrainer.opt_criterion s ∧
     MarginTrainer.scheduler first.2 = MarginTrainer.scheduler s ∧
     MarginTrainer.scheduler_criterion first.2 = MarginTrainer.scheduler_criterion s).
Proof.
  destruct batch as [[input_ids audio] label]. split; intros s first second.
  - subst second first.
    destruct (Trainer.criterion s) as [c|] eqn:Hc.
    + rewrite (Trainer_test_step_run s c) by done. cbn [fst snd].
      by rewrite (Trainer_test_step_run _ c).
    + rewrite (Trainer_test_step_no_criterion s) by done. cbn [fst snd].
      by rewrite Trainer_test_step_no_criterion.
  - subst second first. rewrite (MarginTrainer_test_step_run s). cbn [fst snd].
    by rewrite MarginTrainer_test_step_run.
Qed.

(** C8 as stated fails on a batch without elements: the step returns, and
    the accuracy is the [nan] that the mean of an empty tensor is, which is
    no number of the interval [0, 1]. *)
Lemma accuracy_of_empty_batch_is_nan :
  (∃ r, (Trainer.test_step (H := Toy.toy) ([], [], []) (Toy.trainer 1)).1 = inr r
        ∧ acc r = NaN) ∧
  (∃ r, (MarginTrainer.test_step (H := Toy.toy) ([], [], [])
           (Toy.margin_trainer 2 3 None)).1 = inr r
        ∧ acc r = NaN).
Proof.
  split; eexists; (split; [vm_compute; reflexivity | reflexivity]).
Qed.

(** C8, amended: for every batch with at least one element for which the
    logits have one row per label, the [acc] that a step function returns
    is a number of the interval [0, 1], the fraction of batch elements whose
    argmax prediction equals the label; [Trainer] takes the argmax over
    [output[0]], [MarginTrainer] over the logits that the margin criterion
    returns. *)
Theorem step_accuracy_is_fraction `{Torch} (input_ids : TokenIds)
    (audio : Audio) (label : list Z) :
  label ≠ [] →
  (∀ (s : Trainer.state) training step r,
     (training = true ∧ step = Trainer.train_step ∨
      training = false ∧ step = Trainer.test_step) →
     let logits := out0 (forward training (Trainer.network s) input_ids audio) in
     length logits = length label →
     (step (input_ids, audio, label) s).1 = inr r →
     acc r = Fin (fraction_correct logits label) ∧
     (0 <= fraction_correct logits label)%Q ∧
     (fraction_correct logits label <= 1)%Q) ∧
  (∀ (s : MarginTrainer.state) training step r,
     (training = true ∧ step = MarginTrainer.train_step ∨
      training = false ∧ step = MarginTrainer.test_step) →
     let output := forward training (MarginTrainer.network s) input_ids audio in
     let logits := (margin_loss (MarginTrainer.criterion s) (out1 output) label).2 in
     length logits = length label →
     (step (input_ids, audio, label) s).1 = inr r →
     acc r = Fin (fraction_correct logits label) ∧
     (0 <= fraction_correct logits label)%Q ∧
     (fraction_correct logits label <= 1)%Q).
Proof.
  intros Hne. split.
  - intros s training step r Hstep logits Hlen Hrun.
    split; [|by apply fraction_correct_range].
    destruct (Trainer.criterion s) as [c|] eqn:Hc.
    + assert (match accuracy logits label with
              | inl e => inl e
              | inr a => inr {| loss :=
                  c (forward training (Trainer.network s) input_ids audio) label;
                  acc := a |}
              end = inr r) as Hacc.
      { destruct Hstep as [[-> ->]|[-> ->]]; rewrite <- Hrun.
        - by rewrite (Trainer_train_step_run s c).
        - by rewrite (Trainer_test_step_run s c). }
      destruct (accuracy logits label) as [e|a] eqn:Ha; [discriminate|].
      injection Hacc as <-. simpl. by apply accuracy_fraction.
    + destruct Hstep as [[-> ->]|[-> ->]].
      * by rewrite Trainer_train_step_no_criterion in Hrun.
      * by rewrite Trainer_test_step_no_criterion in Hrun.
  - intros s training step r Hstep output logits Hlen Hrun.
    split; [|by apply fraction_correct_range].
    assert (match accuracy logits label with
            | inl e => inl e
            | inr a => inr {| loss :=
                (margin_loss (MarginTrainer.criterion s) (out1 output) label).1;
                acc := a |}
            end = inr r) as Hacc.
    { destruct Hstep as [[-> ->]|[-> ->]]; rewrite <- Hrun.
      - by rewrite MarginTrainer_train_step_run.
      - by rewrite MarginTrainer_test_step_run. }
    destruct (accuracy logits label) as [e|a] eqn:Ha; [discriminate|].
    injection Hacc as <-. simpl. by apply accuracy_fraction.
Qed.

Lemma step_accuracy_is_fraction_witness :
  let batch : list Z * list Q * list Z := ([1; 2]%Z, [3; 0.25]%Q, [0; 0]%Z) in
  let logits : list (list Q) := [[9; 6]; [0.75; 6]]%Q in
  let r := {| loss := 3; acc := Fin (1 # 2) |} in
  (MarginTrainer.train_step (H := Toy.toy) batch (Toy.margin_trainer 2 3 None)).1
  = inr r ∧
  acc r = Fin (fraction_correct logits [0; 0]%Z) ∧
  (0 <= fraction_correct logits [0; 0]%Z)%Q ∧
  (fraction_correct logits [0; 0]%Z <= 1)%Q.
Proof.
  split; [reflexivity|].
  apply (proj2 (step_accuracy_is_fraction (H := Toy.toy)
                  [1; 2]%Z [3; 0.25]%Q [0; 0]%Z ltac:(discriminate))
           (Toy.margin_trainer 2 3 None) true MarginTrainer.train_step).
  - left. split; reflexivity.
  - reflexivity.
  - reflexivity.
Defined.

(** ** The constructor and the schedule hook of MarginTrainer *)

(** C9: constructing [MarginTrainer] with a criterion that is not a
    [CombinedMarginLoss] raises: no trainer is built, so no batch can be
    processed; when the base class constructor succeeds the error is the
    failed assertion. *)
Theorem MarginTrainer_init_rejects_other_criteria `{Torch}
    `{!MarginTrainer.Driver} (network : NetState)
    (criterion : MarginTrainer.CriterionObj) (kwargs : MarginTrainer.Kwargs) :
  (∀ parameters, criterion ≠ MarginTrainer.CombinedMarginLoss parameters) →
  ∃ e, MarginTrainer.init network criterion kwargs = inl e ∧
       (∀ base, MarginTrainer.TorchTrainer_init kwargs = inr base →
                e = AssertionError "Criterion must be CombinedMarginLoss").
Proof.
  intros Hother. unfold MarginTrainer.init.
  destruct (MarginTrainer.TorchTrainer_init kwargs) as [e|base].
  - exists e. split; [reflexivity|]. intros base [=].
  - destruct criterion as [parameters| | |];
      [by destruct (Hother parameters)| | |];
      (eexists; split; [reflexivity|done]).
Qed.

Lemma MarginTrainer_init_rejects_other_criteria_witness :
  ∃ e, @MarginTrainer.init Toy.toy Toy.toy_driver 2%Q
         (MarginTrainer.CrossEntropyLoss Toy.embedding_sum) () = inl e ∧
       (∀ base, @MarginTrainer.TorchTrainer_init Toy.toy Toy.toy_driver ()
                = inr base →
                e = AssertionError "Criterion must be CombinedMarginLoss").
Proof.
  apply (@MarginTrainer_init_rejects_other_criteria Toy.toy Toy.toy_driver).
  intros parameters. discriminate.
Defined.

(** C10: [MarginTrainer.lr_scheduler] ignores its two arguments: from the
    same state every pair of arguments gives the same result.  The call
    does not raise; it advances the network schedule by one step when one
    is configured, and it advances the schedule of the loss-function
    optimizer by one step of its own counter, writing the rate of the new
    epoch into that optimizer. *)
Theorem lr_scheduler_ignores_arguments `{Torch} (s : MarginTrainer.state)
    (step epoch step' epoch' : Z) :
  MarginTrainer.lr_scheduler step epoch s = MarginTrainer.lr_scheduler step' epoch' s ∧
  ∃ s', MarginTrainer.lr_scheduler step epoch s = (inr (), s') ∧
    MarginTrainer.scheduler s' =
      ((λ sch, (sched_step sch (MarginTrainer.optimizer s)).1)
         <$> MarginTrainer.scheduler s) ∧
    MarginTrainer.optimizer s' =
      match MarginTrainer.scheduler s with
      | Some sch => (sched_step sch (MarginTrainer.optimizer s)).2
      | None => MarginTrainer.optimizer s
      end ∧
    (MarginTrainer.scheduler_criterion s', MarginTrainer.opt_criterion s') =
      LambdaLR_step (MarginTrainer.scheduler_criterion s) (MarginTrainer.opt_criterion s) ∧
    last_epoch (MarginTrainer.scheduler_criterion s') =
      (last_epoch (MarginTrainer.scheduler_criterion s) + 1)%Z ∧
    lr (MarginTrainer.opt_criterion s') =
      (base_lr (MarginTrainer.scheduler_criterion s) *
       Schedule.lr_lambda (last_epoch (MarginTrainer.scheduler_criterion s) + 1))%Q ∧
    MarginTrainer.network s' = MarginTrainer.network s ∧
    MarginTrainer.criterion s' = MarginTrainer.criterion s.
Proof.
  split; [reflexivity|].
  destruct s as [n tr gn o [sch|] c gc oc sc se gs lg];
    run_body; eexists; (split; [reflexivity|]); repeat split; reflexivity.
Qed.

(** ** Checkpoints *)

Section Checkpoints.
Context `{Torch}.

Lemma getitem_Some (d : gmap string MarginTrainer.PyObj) key v :
  d !! key = Some v → MarginTrainer.getitem d key = ret v.
Proof. intros Hkey. unfold MarginTrainer.getitem. by rewrite Hkey. Qed.

Lemma getitem_None (d : gmap string MarginTrainer.PyObj) key :
  d !! key = None → MarginTrainer.getitem d key = raise (KeyError key).
Proof. intros Hkey. unfold MarginTrainer.getitem. by rewrite Hkey. Qed.

(** [save_all_states] writes one file and leaves the trainer as it is. *)
Lemma save_all_states_run (s : MarginTrainer.state) path global_epoch global_step fs :
  ∃ checkpoint,
    MarginTrainer.save_all_states path global_epoch global_step fs s =
      (inr (path_join path (checkpoint_name global_epoch global_step),
            <[path_join path (checkpoint_name global_epoch global_step)
              := checkpoint]> fs), s) ∧
    checkpoint !! "epoch" = Some (MarginTrainer.PyInt global_epoch) ∧
    checkpoint !! "global_step" = Some (MarginTrainer.PyInt global_step) ∧
    checkpoint !! "state_dict_network" =
      Some (MarginTrainer.NetStateDict (MarginTrainer.network s)) ∧
    checkpoint !! "state_optimizer" =
      Some (MarginTrainer.OptStateDict (MarginTrainer.optimizer s)) ∧
    checkpoint !! "state_criterion" =
      Some (MarginTrainer.CritStateDict (MarginTrainer.criterion s)) ∧
    checkpoint !! "state_lr_scheduler_criterion" =
      Some (MarginTrainer.LambdaLRStateDict (MarginTrainer.scheduler_criterion s)) ∧
    checkpoint !! "state_lr_scheduler" =
      MarginTrainer.SchedStateDict <$> MarginTrainer.scheduler s.
Proof.
  eexists. split; [reflexivity|].
  destruct (MarginTrainer.scheduler s) as [sch|]; simpl;
    repeat split; by simplify_map_eq.
Qed.

(** [load_all_states] on a file that holds every entry it reads. *)
Lemma load_all_states_run (s : MarginTrainer.state) path device fs
    (checkpoint : gmap string MarginTrainer.PyObj) epoch global_step dn do dc dl ds :
  fs !! path = Some checkpoint →
  checkpoint !! "epoch" = Some epoch →
  checkpoint !! "global_step" = Some global_step →
  checkpoint !! "state_dict_network" = Some (MarginTrainer.NetStateDict dn) →
  checkpoint !! "state_optimizer" = Some (MarginTrainer.OptStateDict do) →
  checkpoint !! "state_criterion" = Some (MarginTrainer.CritStateDict dc) →
  checkpoint !! "state_lr_scheduler_criterion" =
    Some (MarginTrainer.LambdaLRStateDict dl) →
  (is_Some (MarginTrainer.scheduler s) →
   is_Some ds ∧
   checkpoint !! "state_lr_scheduler" = MarginTrainer.SchedStateDict <$> ds) →
  MarginTrainer.load_all_states path device fs s =
    (inr (),
     {| MarginTrainer.network := dn;
        MarginTrainer.training := MarginTrainer.training s;
        MarginTrainer.net_grad := MarginTrainer.net_grad s;
        MarginTrainer.optimizer := do;
        MarginTrainer.scheduler :=
          match MarginTrainer.scheduler s with
          | Some _ => ds
          | None => None
          end;
        MarginTrainer.criterion := dc;
        MarginTrainer.crit_grad := MarginTrainer.crit_grad s;
        MarginTrainer.opt_criterion := MarginTrainer.opt_criterion s;
        MarginTrainer.scheduler_criterion := dl;
        MarginTrainer.start_epoch := epoch;
        MarginTrainer.global_step := global_step;
        MarginTrainer.log := MarginTrainer.log s |}).
Proof.
  intros Hfile Hepoch Hstep Hnet Hopt Hcrit Hlr Hsched.
  destruct s as [n tr gn o sch c gc oc sc se gs lg]; simpl in Hsched.
  run_body. rewrite Hfile. run_body. rewrite Hepoch. run_body.
  rewrite Hstep. run_body. rewrite Hnet. run_body. rewrite Hopt. run_body.
  rewrite Hcrit. run_body. rewrite Hlr. run_body.
  destruct sch as [sch|]; [|reflexivity].
  destruct Hsched as [[d ->] Hentry]; [done|].
  rewrite Hentry. reflexivity.
Qed.

(** The result of [train_step] is determined by the network parameters,
    the parameters of the criterion and the batch. *)
Lemma MarginTrainer_train_step_result (s1 s2 : MarginTrainer.state) batch :
  MarginTrainer.network s1 = MarginTrainer.network s2 →
  MarginTrainer.criterion s1 = MarginTrainer.criterion s2 →
  (MarginTrainer.train_step batch s1).1 = (MarginTrainer.train_step batch s2).1.
Proof.
  intros Hnet Hcrit. destruct batch as [[input_ids audio] label].
  rewrite !MarginTrainer_train_step_run. cbn [fst].
  by rewrite Hnet, Hcrit.
Qed.

End Checkpoints.

(** C1: [save_all_states] followed by [load_all_states] of the written file,
    on a fresh trainer of the same configuration (a network schedule only if
    the saving trainer has one), restores the network parameters, the state
    of the network optimizer, the parameters of the criterion, the state of
    the criterion schedule, the saved epoch and the saved global step (and
    the state of the network schedule when there is one); [train_step] on
    the same batch then returns the same loss and accuracy on both
    trainers. *)
Theorem save_load_roundtrip `{Torch} (original fresh : MarginTrainer.state)
    (path device : string) (global_epoch global_step : Z)
    (fs : gmap string (gmap string MarginTrainer.PyObj)) :
  (is_Some (MarginTrainer.scheduler fresh) →
   is_Some (MarginTrainer.scheduler original)) →
  ∃ ckpt_path fs' restored,
    MarginTrainer.save_all_states path global_epoch global_step fs original
      = (inr (ckpt_path, fs'), original) ∧
    MarginTrainer.load_all_states ckpt_path device fs' fresh = (inr (), restored) ∧
    MarginTrainer.network restored = MarginTrainer.network original ∧
    MarginTrainer.optimizer restored = MarginTrainer.optimizer original ∧
    MarginTrainer.criterion restored = MarginTrainer.criterion original ∧
    MarginTrainer.scheduler_criterion restored
      = MarginTrainer.scheduler_criterion original ∧
    (is_Some (MarginTrainer.scheduler fresh) →
     MarginTrainer.scheduler restored = MarginTrainer.scheduler original) ∧
    MarginTrainer.start_epoch restored = MarginTrainer.PyInt global_epoch ∧
    MarginTrainer.global_step restored = MarginTrainer.PyInt global_step ∧
    ∀ batch,
      (MarginTrainer.train_step batch original).1
      = (MarginTrainer.train_step batch restored).1.
Proof.
  intros Hconfig.
  destruct (save_all_states_run original path global_epoch global_step fs)
    as (checkpoint & Hsave & Hepoch & Hstep & Hnet & Hopt & Hcrit & Hlr & Hsched).
  eexists _, _, _. split; [exact Hsave|].
  split.
  { eapply (load_all_states_run fresh _ device _ checkpoint); try eassumption.
    - apply lookup_insert_eq.
    - intros Hfresh. split; [by apply Hconfig | exact Hsched]. }
  cbn [MarginTrainer.network MarginTrainer.optimizer MarginTrainer.criterion
       MarginTrainer.scheduler_criterion MarginTrainer.scheduler
       MarginTrainer.start_epoch MarginTrainer.global_step].
  repeat split; try reflexivity.
  - intros [sch Hfresh]. by rewrite Hfresh.
  - intros batch. by apply MarginTrainer_train_step_result.
Qed.

Lemma save_load_roundtrip_witness :
  let original := Toy.margin_trainer 2 3 (Some 4%Z) in
  let fresh := Toy.margin_trainer 0 1 (Some 0%Z) in
  ∃ ckpt_path fs' restored,
    MarginTrainer.save_all_states (H := Toy.toy) "runs" 3 120 ∅ original
      = (inr (ckpt_path, fs'), original) ∧
    MarginTrainer.load_all_states ckpt_path "cpu" fs' fresh = (inr (), restored) ∧
    MarginTrainer.network restored = MarginTrainer.network original ∧
    MarginTrainer.optimizer restored = MarginTrainer.optimizer original ∧
    MarginTrainer.criterion restored = MarginTrainer.criterion original ∧
    MarginTrainer.scheduler_criterion restored
      = MarginTrainer.scheduler_criterion original ∧
    (is_Some (MarginTrainer.scheduler fresh) →
     MarginTrainer.scheduler restored = MarginTrainer.scheduler original) ∧
    MarginTrainer.start_epoch restored = MarginTrainer.PyInt 3 ∧
    MarginTrainer.global_step restored = MarginTrainer.PyInt 120 ∧
    ∀ batch,
      (MarginTrainer.train_step batch original).1
      = (MarginTrainer.train_step batch restored).1.
Proof.
  apply (save_load_roundtrip (H := Toy.toy)). intros _. by eexists.
Defined.

(** The file name that [save_all_states] derives from the directory, the
    epoch and the step. *)
Example checkpoint_path_example :
  path_join "runs" (checkpoint_name 3 120) = "runs/checkpoint_3_120.pt" ∧
  path_join "runs/" (checkpoint_name 3 (-1)) = "runs/checkpoint_3_-1.pt" ∧
  path_join "" (checkpoint_name 0 0) = "checkpoint_0_0.pt".
Proof. repeat split; vm_compute; reflexivity. Qed.

(** C2 as stated fails: on a file that lacks the key ["state_criterion"],
    [load_all_states] raises the [KeyError], and by then the start epoch,
    the global step, the network parameters and the optimizer state have
    been overwritten with the values of the file. *)
Lemma load_all_states_applies_state_before_the_error :
  let s := Toy.margin_trainer 2 3 None in
  let fs : gmap string (gmap string MarginTrainer.PyObj) :=
    {["ck.pt" := Toy.truncated_checkpoint]} in
  "state_criterion" ∈ MarginTrainer.expected_keys s ∧
  Toy.truncated_checkpoint !! "state_criterion" = None ∧
  ∃ s',
    MarginTrainer.load_all_states (H := Toy.toy) "ck.pt" "cpu" fs s
      = (inl (KeyError "state_criterion"), s') ∧
    MarginTrainer.start_epoch s = MarginTrainer.PyInt 0 ∧
    MarginTrainer.start_epoch s' = MarginTrainer.PyInt 3 ∧
    MarginTrainer.global_step s = MarginTrainer.PyInt 0 ∧
    MarginTrainer.global_step s' = MarginTrainer.PyInt 120 ∧
    MarginTrainer.network s = 2%Q ∧ MarginTrainer.network s' = 7%Q ∧
    MarginTrainer.optimizer s = 0.1%Q ∧ MarginTrainer.optimizer s' = 0.5%Q.
Proof.
  cbv zeta. split; [|split].
  - unfold MarginTrainer.expected_keys. simpl. set_solver.
  - reflexivity.
  - eexists. split; [vm_compute; reflexivity|]. repeat split.
Qed.

(** C2, amended: when the file lacks a key that [load_all_states] reads,
    [load_all_states] raises an error, and at that point no component that
    is restored from this key or from a later one has been modified; the
    components restored from the keys read before it may already have been
    overwritten.  The whole trainer state is unmodified only when the
    missing key is ["epoch"], the first one read. *)
Theorem load_all_states_missing_key `{Torch} (s : MarginTrainer.state)
    (path device : string) (fs : gmap string (gmap string MarginTrainer.PyObj))
    (checkpoint : gmap string MarginTrainer.PyObj) (i : nat) (key : string) :
  fs !! path = Some checkpoint →
  MarginTrainer.expected_keys s !! i = Some key →
  checkpoint !! key = None →
  ∃ e s',
    MarginTrainer.load_all_states path device fs s = (inl e, s') ∧
    MarginTrainer.unchanged_from i s s' ∧
    (i = 0%nat → s' = s).
Proof.
  intros Hfile Hkey Hmissing.
  destruct s as [n tr gn o sch c gc oc sc se gs lg].
  run_body. rewrite Hfile. run_body.
  unfold MarginTrainer.expected_keys in Hkey. cbn in Hkey.
  destruct i as [|[|[|[|[|[|[|i]]]]]]]; cbn in Hkey;
    destruct sch as [sch|]; simplify_eq/=.
  all: read_value checkpoint "epoch".
  all: read_value checkpoint "global_step".
  all: read_key checkpoint "state_dict_network".
  all: read_key checkpoint "state_optimizer".
  all: read_key checkpoint "state_criterion".
  all: read_key checkpoint "state_lr_scheduler_criterion".
  all: read_key checkpoint "state_lr_scheduler".
Qed.

Lemma load_all_states_missing_key_witness :
  let s := Toy.margin_trainer 2 3 None in
  ∃ e s',
    MarginTrainer.load_all_states (H := Toy.toy) "ck.pt" "cpu"
      {["ck.pt" := Toy.truncated_checkpoint]} s = (inl e, s') ∧
    MarginTrainer.unchanged_from 4 s s' ∧
    (4%nat = 0%nat → s' = s).
Proof.
  apply (load_all_states_missing_key (H := Toy.toy) _ "ck.pt" "cpu" _
           Toy.truncated_checkpoint 4 "state_criterion").
  - vm_compute. reflexivity.
  - reflexivity.
  - vm_compute. reflexivity.
Defined.

(** * Further properties of the code *)

(** ** The multiplier of the loss-function schedule *)

(** X1: From epoch -1 on the multiplier never increases, and it stays between
    0.0001 and 1: the rate of the loss-function optimizer only decays, by at
    most four factors of 0.1. *)
Theorem lr_lambda_decays (epoch epoch' : Z) :
  (-1 ≤ epoch)%Z → (epoch ≤ epoch')%Z →
  (Schedule.lr_lambda epoch' <= Schedule.lr_lambda epoch)%Q ∧
  (0.0001 <= Schedule.lr_lambda epoch')%Q ∧
  (Schedule.lr_lambda epoch <= 1)%Q.
Proof.
  intros Hfrom Hle.
  rewrite !lr_lambda_from_minus_one, !milestones_counted by lia.
  unfold Schedule.milestones_passed.
  repeat case_decide; try lia; repeat split; by vm_compute.
Qed.

Lemma lr_lambda_decays_witness :
  (Schedule.lr_lambda 20 <= Schedule.lr_lambda 3)%Q ∧
  (0.0001 <= Schedule.lr_lambda 20)%Q ∧
  (Schedule.lr_lambda 3 <= 1)%Q.
Proof. apply (lr_lambda_decays 3 20); lia. Defined.

(** X2: Below epoch -1 the lambda takes its other branch, the square of
    [(epoch + 1) / 5]; it is strictly positive there, and from epoch -6
    down it is at least 1, above every value of the decay branch. *)
Theorem lr_lambda_below_minus_one (epoch : Z) :
  (epoch < -1)%Z →
  (Schedule.lr_lambda epoch == inject_Z ((epoch + 1) * (epoch + 1)) / 25)%Q ∧
  (0 < Schedule.lr_lambda epoch)%Q ∧
  ((epoch ≤ -6)%Z → (1 <= Schedule.lr_lambda epoch)%Q).
Proof.
  intros Hlt. unfold Schedule.lr_lambda.
  rewrite decide_True by done.
  unfold Qeq, Qlt, Qle, Qdiv, Qinv, Qpower, inject_Z. simpl.
  repeat split; intros; nia.
Qed.

Lemma lr_lambda_below_minus_one_witness :
  (Schedule.lr_lambda (-11) == inject_Z ((-11 + 1) * (-11 + 1)) / 25)%Q ∧
  (0 < Schedule.lr_lambda (-11))%Q ∧
  ((-11 ≤ -6)%Z → (1 <= Schedule.lr_lambda (-11))%Q).
Proof. apply (lr_lambda_below_minus_one (-11)). lia. Defined.

(** ** The schedule hook over the epochs of a run *)

Section ScheduleHook.
Context `{Torch}.

Lemma lr_scheduler_run (s : MarginTrainer.state) (step epoch : Z) :
  ∃ s', MarginTrainer.lr_scheduler step epoch s = (inr (), s') ∧
    (MarginTrainer.scheduler_criterion s', MarginTrainer.opt_criterion s')
      = LambdaLR_step (MarginTrainer.scheduler_criterion s)
          (MarginTrainer.opt_criterion s) ∧
    MarginTrainer.network s' = MarginTrainer.network s ∧
    MarginTrainer.criterion s' = MarginTrainer.criterion s ∧
    MarginTrainer.net_grad s' = MarginTrainer.net_grad s ∧
    MarginTrainer.crit_grad s' = MarginTrainer.crit_grad s ∧
    MarginTrainer.start_epoch s' = MarginTrainer.start_epoch s ∧
    MarginTrainer.global_step s' = MarginTrainer.global_step s.
Proof.
  destruct s as [n tr gn o [sch|] c gc oc sc se gs lg];
    run_body; eexists; (split; [reflexivity|]); repeat split; reflexivity.
Qed.

Lemma lr_scheduler_calls_run (args : list (Z * Z)) (s : MarginTrainer.state) :
  ∃ s', MarginTrainer.lr_scheduler_calls args s = (inr (), s') ∧
    last_epoch (MarginTrainer.scheduler_criterion s')
      = (last_epoch (MarginTrainer.scheduler_criterion s)
         + Z.of_nat (length args))%Z ∧
    base_lr (MarginTrainer.scheduler_criterion s')
      = base_lr (MarginTrainer.scheduler_criterion s) ∧
    (lr (MarginTrainer.opt_criterion s)
       = (base_lr (MarginTrainer.scheduler_criterion s)
          * Schedule.lr_lambda (last_epoch (MarginTrainer.scheduler_criterion s)))%Q
     ∨ args ≠ [] →
     lr (MarginTrainer.opt_criterion s')
       = (base_lr (MarginTrainer.scheduler_criterion s')
          * Schedule.lr_lambda (last_epoch (MarginTrainer.scheduler_criterion s')))%Q) ∧
    momentum (MarginTrainer.opt_criterion s')
      = momentum (MarginTrainer.opt_criterion s) ∧
    weight_decay (MarginTrainer.opt_criterion s')
      = weight_decay (MarginTrainer.opt_criterion s) ∧
    momentum_buffer (MarginTrainer.opt_criterion s')
      = momentum_buffer (MarginTrainer.opt_criterion s) ∧
    MarginTrainer.network s' = MarginTrainer.network s ∧
    MarginTrainer.criterion s' = MarginTrainer.criterion s ∧
    MarginTrainer.net_grad s' = MarginTrainer.net_grad s ∧
    MarginTrainer.crit_grad s' = MarginTrainer.crit_grad s.
Proof.
  revert s. induction args as [|[step epoch] rest IH]; intros s.
  - exists s. split; [reflexivity|]. simpl.
    rewrite Z.add_0_r. repeat split; try reflexivity. by intros [?|?].
  - destruct (lr_scheduler_run s step epoch)
      as (s1 & Hrun & Hsched & Hnet & Hcrit & Hgn & Hgc & _).
    destruct (IH s1)
      as (s' & Hrest & Hepoch & Hbase & Hrate & Hmom & Hwd & Hbuf
          & Hnet' & Hcrit' & Hgn' & Hgc').
    exists s'. split.
    { simpl. unfold mbind, M_bind, bind. by rewrite Hrun. }
    unfold LambdaLR_step in Hsched. injection Hsched as Hsc Hoc.
    rewrite Hsc, Hoc in *. simpl in *.
    repeat split; try congruence.
    + rewrite Hepoch. lia.
    + intros _. apply Hrate. by left.
Qed.

End ScheduleHook.

(** X3: From construction on, the schedule of the loss-function optimizer
    counts the calls of [lr_scheduler]: after any number of calls, whatever
    their arguments, its epoch is the number of calls and the rate of the
    loss-function optimizer is 0.01 times the multiplier of that epoch;
    momentum and weight decay stay 0.9 and 5e-4, and the calls change
    neither the network nor the loss parameters. *)
Theorem schedule_counts_the_calls `{Torch} `{!MarginTrainer.Driver}
    (network : NetState) (criterion : MarginTrainer.CriterionObj)
    (kwargs : MarginTrainer.Kwargs) (s : MarginTrainer.state)
    (args : list (Z * Z)) :
  MarginTrainer.init network criterion kwargs = inr s →
  ∃ s', MarginTrainer.lr_scheduler_calls args s = (inr (), s') ∧
    last_epoch (MarginTrainer.scheduler_criterion s') = Z.of_nat (length args) ∧
    lr (MarginTrainer.opt_criterion s')
      = (0.01 * Schedule.lr_lambda (Z.of_nat (length args)))%Q ∧
    momentum (MarginTrainer.opt_criterion s') = 0.9%Q ∧
    weight_decay (MarginTrainer.opt_criterion s') = 5e-4%Q ∧
    MarginTrainer.network s' = network ∧
    MarginTrainer.criterion s' = MarginTrainer.criterion s.
Proof.
  intros Hinit. unfold MarginTrainer.init in Hinit.
  destruct (MarginTrainer.TorchTrainer_init kwargs) as [e|base]; [discriminate|].
  destruct criterion as [parameters| | |]; try discriminate.
  injection Hinit as <-.
  match goal with
  | |- context [MarginTrainer.lr_scheduler_calls args ?s0] =>
      destruct (lr_scheduler_calls_run args s0)
        as (s' & Hrun & Hepoch & Hbase & Hrate & Hmom & Hwd & _ & Hnet & Hcrit & _)
  end.
  exists s'. split; [exact Hrun|].
  simpl in *. rewrite Hrate by (by left). rewrite Hbase, Hepoch.
  repeat split; try assumption.
Qed.

Lemma schedule_counts_the_calls_witness :
  ∃ s s',
    @MarginTrainer.init Toy.toy Toy.toy_driver 2%Q
      (MarginTrainer.CombinedMarginLoss (3%Q : @CritState Toy.toy)) () = inr s ∧
    MarginTrainer.lr_scheduler_calls
      [(0, 0); (0, 0); (5, 5); (0, 1); (0, 0); (9, 9); (1, 1)]%Z s = (inr (), s') ∧
    last_epoch (MarginTrainer.scheduler_criterion s') = 7%Z ∧
    lr (MarginTrainer.opt_criterion s') = (0.01 * Schedule.lr_lambda 7)%Q.
Proof.
  eexists.
  destruct (@schedule_counts_the_calls Toy.toy Toy.toy_driver 2%Q
              (MarginTrainer.CombinedMarginLoss (3%Q : @CritState Toy.toy)) () _
              [(0, 0); (0, 0); (5, 5); (0, 1); (0, 0); (9, 9); (1, 1)]%Z eq_refl)
    as (s' & Hrun & Hepoch & Hrate & _).
  exists s'. repeat split; assumption.
Defined.

(** ** The steps of Trainer *)

(** X4: [Trainer.train_step] with a configured criterion: the gradients are
    zeroed before the forward pass, the criterion is called once, one
    backward pass follows and then one optimizer step; the gradient held
    afterwards is that of this pass alone, the optimizer has stepped on it,
    and the criterion is the one configured. *)
Theorem Trainer_train_step_order `{Torch} (s : Trainer.state) c
    input_ids audio label :
  Trainer.criterion s = Some c →
  let g := grad_fixed c (Trainer.network s) input_ids audio label in
  let run := Trainer.train_step (input_ids, audio, label) s in
  Trainer.log run.2 =
    Trainer.log s ++
    [EvTrainMode; EvZeroGrad NetworkOptimizer; EvForward; EvCriterion;
     EvBackward; EvStep NetworkOptimizer] ∧
  Trainer.training run.2 = true ∧
  Trainer.grad run.2 = Some g ∧
  (Trainer.optimizer run.2, Trainer.network run.2) =
    opt_step (Trainer.optimizer s) (Trainer.network s) (Some g) ∧
  Trainer.criterion run.2 = Some c.
Proof.
  intros Hc g run. subst run g.
  rewrite (Trainer_train_step_run s c) by done. cbn.
  repeat split; try reflexivity. symmetry. apply surjective_pairing.
Qed.

Lemma Trainer_train_step_order_witness :
  let run := Trainer.train_step (H := Toy.toy) ([5]%Z, [0%Q], [1]%Z) (Toy.trainer 2) in
  Trainer.log run.2 =
    [EvTrainMode; EvZeroGrad NetworkOptimizer; EvForward; EvCriterion;
     EvBackward; EvStep NetworkOptimizer] ∧
  Trainer.training run.2 = true ∧
  Trainer.grad run.2 = Some 1%Q ∧
  (Trainer.optimizer run.2, Trainer.network run.2) =
    Toy.toy_opt_step 0.1%Q 2%Q (Some 1%Q) ∧
  Trainer.criterion run.2 = Some Toy.embedding_sum.
Proof.
  exact (Trainer_train_step_order (H := Toy.toy) (Toy.trainer 2)
           Toy.embedding_sum [5]%Z [0%Q] [1]%Z eq_refl).
Defined.

(** X5: Without a criterion (the default [None] of the constructor) both steps
    of [Trainer] raise a [TypeError] at the call of the criterion, after the
    forward pass.  [test_step] has then only switched the network to
    evaluation mode; [train_step] has switched it to training mode and
    zeroed the gradients, and it has made neither a backward pass nor an
    optimizer step: parameters and optimizer state are untouched. *)
Theorem Trainer_steps_without_criterion `{Torch} (s : Trainer.state)
    (batch : TokenIds * Audio * list Z) :
  Trainer.criterion s = None →
  Trainer.train_step batch s =
    (inl (TypeError "'NoneType' object is not callable"),
     {| Trainer.network := Trainer.network s; Trainer.training := true;
        Trainer.grad := None; Trainer.criterion := None;
        Trainer.optimizer := Trainer.optimizer s;
        Trainer.log :=
          Trainer.log s ++ [EvTrainMode; EvZeroGrad NetworkOptimizer; EvForward] |}) ∧
  Trainer.test_step batch s =
    (inl (TypeError "'NoneType' object is not callable"),
     {| Trainer.network := Trainer.network s; Trainer.training := false;
        Trainer.grad := Trainer.grad s; Trainer.criterion := None;
        Trainer.optimizer := Trainer.optimizer s;
        Trainer.log := Trainer.log s ++ [EvEvalMode; EvForward] |}).
Proof.
  destruct batch as [[input_ids audio] label].
  destruct s as [n tr g cr o lg]. simpl. intros ->.
  split; run_body; finish_run.
Qed.

Lemma Trainer_steps_without_criterion_witness :
  let s := Toy.trainer_without_criterion in
  let run := Trainer.train_step (H := Toy.toy) ([5]%Z, [0%Q], [1]%Z) s in
  run.1 = inl (TypeError "'NoneType' object is not callable") ∧
  Trainer.grad run.2 = None ∧
  Trainer.network run.2 = Trainer.network s ∧
  Trainer.optimizer run.2 = Trainer.optimizer s.
Proof.
  cbv zeta.
  rewrite (proj1 (Trainer_steps_without_criterion (H := Toy.toy)
                    Toy.trainer_without_criterion
                    ([5]%Z, [0%Q], [1]%Z) eq_refl)).
  repeat split.
Defined.

(** ** The names of the checkpoint files *)

Lemma pretty_N_go_chars (x : N) (s : string) :
  string_forall sign_or_digit s = true →
  string_forall sign_or_digit (pretty_N_go x s) = true.
Proof.
  revert s. induction (N.lt_wf_0 x) as [x _ IH]; intros s Hs.
  destruct (decide (0 < x)%N) as [Hpos|Hzero].
  - rewrite pretty_N_go_step by done. apply IH.
    + by apply N.div_lt.
    + simpl. rewrite Hs, andb_true_r.
      unfold pretty_N_char. by repeat case_match.
  - assert (x = 0%N) as -> by lia. by rewrite pretty_N_go_0.
Qed.

Lemma pretty_Z_chars (z : Z) : string_forall sign_or_digit (pretty z) = true.
Proof.
  assert (∀ p : positive, string_forall sign_or_digit (pretty p) = true) as Hpos.
  { intros p. unfold pretty, pretty_positive, pretty, pretty_N.
    rewrite decide_False by done. by apply pretty_N_go_chars. }
  destruct z as [|p|p]; [done|apply Hpos|].
  unfold pretty, pretty_Z. simpl. apply Hpos.
Qed.

(** Two strings that agree up to a separator which neither prefix contains
    have the same prefix and the same rest. *)
Lemma split_at_separator (c : ascii) (a a' r r' : string) :
  string_forall (λ x, negb (bool_decide (x = c))) a = true →
  string_forall (λ x, negb (bool_decide (x = c))) a' = true →
  a +:+ String c r = a' +:+ String c r' → a = a' ∧ r = r'.
Proof.
  revert a'. induction a as [|x a IH]; intros [|x' a'] Ha Ha' Heq; simpl in *.
  - by injection Heq as ->.
  - injection Heq as <- _.
    apply andb_true_iff in Ha' as [Hx _]. by rewrite bool_decide_true in Hx.
  - injection Heq as -> _.
    apply andb_true_iff in Ha as [Hx _]. by rewrite bool_decide_true in Hx.
  - injection Heq as -> Htail.
    apply andb_true_iff in Ha as [_ Ha]. apply andb_true_iff in Ha' as [_ Ha'].
    by destruct (IH a' Ha Ha' Htail) as [-> ->].
Qed.

Lemma string_forall_impl (P Q : ascii → bool) (s : string) :
  (∀ c, P c = true → Q c = true) →
  string_forall P s = true → string_forall Q s = true.
Proof.
  intros HPQ. induction s as [|c s IH]; simpl; [done|].
  rewrite !andb_true_iff. intros [Hc Hs]. auto.
Qed.

Lemma checkpoint_name_inj (e st e' st' : Z) :
  checkpoint_name e st = checkpoint_name e' st' → e = e' ∧ st = st'.
Proof.
  unfold checkpoint_name. intros Heq. simpl in Heq. simplify_eq.
  assert (∀ (c : ascii) (z : Z), sign_or_digit c = false →
            string_forall (λ x, negb (bool_decide (x = c))) (pretty z) = true)
    as Hfree.
  { intros c z Hc. eapply string_forall_impl; [|apply pretty_Z_chars].
    intros x Hx. apply negb_true_iff, bool_decide_eq_false.
    intros ->. by rewrite Hc in Hx. }
  assert (sign_or_digit "_" = false) as Hus by reflexivity.
  assert (sign_or_digit "." = false) as Hdot by reflexivity.
  destruct (split_at_separator "_" (pretty e) (pretty e') _ _
              (Hfree _ e Hus) (Hfree _ e' Hus) Heq) as [He Hrest].
  destruct (split_at_separator "." (pretty st) (pretty st') "pt" "pt"
              (Hfree _ st Hdot) (Hfree _ st' Hdot) Hrest) as [Hst _].
  split; by apply (inj pretty).
Qed.

Lemma string_append_assoc (a b c : string) : (a +:+ b) +:+ c = a +:+ b +:+ c.
Proof.
  induction a as [|x a IH]; [done|].
  change (String x ((a +:+ b) +:+ c) = String x (a +:+ b +:+ c)). by f_equal.
Qed.

Lemma path_join_checkpoint_name (path : string) (e st : Z) :
  path_join path (checkpoint_name e st)
  = (if bool_decide (path = "") || ends_with_slash path then path
     else path +:+ "/") +:+ checkpoint_name e st.
Proof.
  unfold path_join.
  change (starts_with_slash (checkpoint_name e st)) with false. cbv iota.
  destruct (bool_decide (path = "") || ends_with_slash path); [done|].
  by rewrite string_append_assoc.
Qed.

Lemma checkpoint_path_inj_pairs (path : string) (e st e' st' : Z) :
  path_join path (checkpoint_name e st) = path_join path (checkpoint_name e' st') →
  (e, st) = (e', st').
Proof.
  rewrite !path_join_checkpoint_name. intros Heq.
  apply (inj (String.append _)) in Heq.
  by destruct (checkpoint_name_inj _ _ _ _ Heq) as [-> ->].
Qed.

(** X6: [save_all_states] never reuses a file name within a directory: the
    paths built for two pairs of epoch and step are equal only if the
    pairs are. *)
Theorem checkpoint_path_inj (path : string) (e st e' st' : Z) :
  path_join path (checkpoint_name e st) = path_join path (checkpoint_name e' st') →
  e = e' ∧ st = st'.
Proof.
  rewrite !path_join_checkpoint_name. intros Heq.
  apply (inj (String.append _)) in Heq. by apply checkpoint_name_inj.
Qed.

Lemma checkpoint_path_inj_witness :
  path_join "runs" (checkpoint_name 3 120) = path_join "runs" (checkpoint_name 3 120) ∧
  (3 = 3 ∧ 120 = 120)%Z.
Proof.
  split; [reflexivity|]. apply (checkpoint_path_inj "runs" 3 120 3 120). reflexivity.
Defined.

(** ** What a checkpoint holds and what it leaves out *)

Section CheckpointContent.
Context `{Torch}.

Lemma save_all_states_eq (s : MarginTrainer.state) path global_epoch global_step fs :
  MarginTrainer.save_all_states path global_epoch global_step fs s =
    (inr (path_join path (checkpoint_name global_epoch global_step),
          <[path_join path (checkpoint_name global_epoch global_step)
            := MarginTrainer.checkpoint_dict s global_epoch global_step]> fs), s).
Proof. reflexivity. Qed.

Lemma checkpoint_dict_keys (s : MarginTrainer.state) global_epoch global_step :
  dom (MarginTrainer.checkpoint_dict s global_epoch global_step)
  = list_to_set (MarginTrainer.expected_keys s).
Proof.
  unfold MarginTrainer.checkpoint_dict, MarginTrainer.expected_keys.
  destruct (MarginTrainer.scheduler s) as [sch|]; simpl;
    rewrite ?dom_insert_L, dom_empty_L; [|reflexivity].
  apply set_eq. intros key. rewrite !elem_of_union, !elem_of_singleton. tauto.
Qed.

End CheckpointContent.

(** X7: [save_all_states] returns the path built from the directory, the epoch
    and the step, leaves the trainer as it is and touches no other file; the
    dictionary it writes holds exactly the keys that [load_all_states] of a
    trainer with the same schedule configuration reads. *)
Theorem save_all_states_writes_expected_keys `{Torch} (s : MarginTrainer.state)
    (path : string) (global_epoch global_step : Z)
    (fs : gmap string (gmap string MarginTrainer.PyObj)) :
  ∃ fs' checkpoint,
    MarginTrainer.save_all_states path global_epoch global_step fs s
      = (inr (path_join path (checkpoint_name global_epoch global_step), fs'), s) ∧
    fs' !! path_join path (checkpoint_name global_epoch global_step)
      = Some checkpoint ∧
    dom checkpoint = list_to_set (MarginTrainer.expected_keys s) ∧
    ∀ other, other ≠ path_join path (checkpoint_name global_epoch global_step) →
             fs' !! other = fs !! other.
Proof.
  eexists _, _. split; [apply save_all_states_eq|].
  split; [apply lookup_insert_eq|].
  split; [apply checkpoint_dict_keys|].
  intros other Hother. by apply lookup_insert_ne.
Qed.

(** X8: Two saves into one directory under different pairs of epoch and step
    write two files: the second save leaves the file of the first as the
    first wrote it. *)
Theorem later_save_keeps_earlier_file `{Torch} (s1 s2 : MarginTrainer.state)
    (path : string) (e1 st1 e2 st2 : Z)
    (fs : gmap string (gmap string MarginTrainer.PyObj)) :
  (e1, st1) ≠ (e2, st2) →
  ∃ p1 fs1 p2 fs2,
    MarginTrainer.save_all_states path e1 st1 fs s1 = (inr (p1, fs1), s1) ∧
    MarginTrainer.save_all_states path e2 st2 fs1 s2 = (inr (p2, fs2), s2) ∧
    p1 ≠ p2 ∧
    fs2 !! p1 = Some (MarginTrainer.checkpoint_dict s1 e1 st1) ∧
    fs2 !! p2 = Some (MarginTrainer.checkpoint_dict s2 e2 st2).
Proof.
  intros Hpairs. eexists _, _, _, _.
  split; [apply save_all_states_eq|]. split; [apply save_all_states_eq|].
  assert (path_join path (checkpoint_name e1 st1)
          ≠ path_join path (checkpoint_name e2 st2)) as Hpaths.
  { intros Heq. apply checkpoint_path_inj_pairs in Heq. congruence. }
  split; [exact Hpaths|]. split.
  - rewrite lookup_insert_ne by done. apply lookup_insert_eq.
  - apply lookup_insert_eq.
Qed.

Lemma later_save_keeps_earlier_file_witness :
  ∃ p1 fs1 p2 fs2,
    MarginTrainer.save_all_states (H := Toy.toy) "runs" 3 120 ∅
      (Toy.margin_trainer 2 3 None) = (inr (p1, fs1), Toy.margin_trainer 2 3 None) ∧
    MarginTrainer.save_all_states (H := Toy.toy) "runs" 4 160 fs1
      (Toy.margin_trainer 5 6 None) = (inr (p2, fs2), Toy.margin_trainer 5 6 None) ∧
    p1 ≠ p2 ∧
    fs2 !! p1 = Some (MarginTrainer.checkpoint_dict (Toy.margin_trainer 2 3 None) 3 120) ∧
    fs2 !! p2 = Some (MarginTrainer.checkpoint_dict (Toy.margin_trainer 5 6 None) 4 160).
Proof.
  apply (later_save_keeps_earlier_file (H := Toy.toy)). discriminate.
Defined.

(** X9: The checkpoint leaves out the loss-function optimizer: two trainers that
    agree on the network, the network optimizer, the network schedule, the
    loss parameters and the loss schedule write the same file, whatever
    their loss-function optimizers (rate, momentum buffer), gradients,
    modes and epoch counters are. *)
Theorem save_all_states_leaves_out_opt_criterion `{Torch}
    (s1 s2 : MarginTrainer.state) (path : string) (global_epoch global_step : Z)
    (fs : gmap string (gmap string MarginTrainer.PyObj)) :
  MarginTrainer.network s1 = MarginTrainer.network s2 →
  MarginTrainer.optimizer s1 = MarginTrainer.optimizer s2 →
  MarginTrainer.scheduler s1 = MarginTrainer.scheduler s2 →
  MarginTrainer.criterion s1 = MarginTrainer.criterion s2 →
  MarginTrainer.scheduler_criterion s1 = MarginTrainer.scheduler_criterion s2 →
  (MarginTrainer.save_all_states path global_epoch global_step fs s1).1
  = (MarginTrainer.save_all_states path global_epoch global_step fs s2).1.
Proof.
  intros Hnet Hopt Hsched Hcrit Hlr. rewrite !save_all_states_eq. cbn [fst].
  unfold MarginTrainer.checkpoint_dict. by rewrite Hnet, Hopt, Hsched, Hcrit, Hlr.
Qed.

Lemma save_all_states_leaves_out_opt_criterion_witness :
  (MarginTrainer.save_all_states (H := Toy.toy) "runs" 1 10 ∅
     (Toy.margin_trainer 2 3 None)).1
  = (MarginTrainer.save_all_states (H := Toy.toy) "runs" 1 10 ∅
       (Toy.margin_trainer_in_training 2 3 None)).1.
Proof.
  apply (save_all_states_leaves_out_opt_criterion (H := Toy.toy)); reflexivity.
Defined.

(** Reads the entry [key] of the checkpoint [ck] and closes with [fin] the
    branches in which the run ends. *)
Ltac read_key_then ck key fin :=
  destruct (ck !! key) as [[]|] eqn:?; run_body; try fin.

(** X10: [load_all_states] never writes the loss-function optimizer, the
    gradients, the mode of the network or the log of calls, whether it
    returns or raises; and it neither configures nor removes a network
    schedule. *)
Theorem load_all_states_leaves_opt_criterion `{Torch} (s : MarginTrainer.state)
    (path device : string) (fs : gmap string (gmap string MarginTrainer.PyObj)) :
  let s' := (MarginTrainer.load_all_states path device fs s).2 in
  MarginTrainer.opt_criterion s' = MarginTrainer.opt_criterion s ∧
  MarginTrainer.net_grad s' = MarginTrainer.net_grad s ∧
  MarginTrainer.crit_grad s' = MarginTrainer.crit_grad s ∧
  MarginTrainer.training s' = MarginTrainer.training s ∧
  MarginTrainer.log s' = MarginTrainer.log s ∧
  (is_Some (MarginTrainer.scheduler s') ↔ is_Some (MarginTrainer.scheduler s)).
Proof.
  destruct s as [n tr gn o sch c gc oc sc se gs lg]. run_body.
  destruct (fs !! path) as [checkpoint|]; run_body; [|done].
  destruct (checkpoint !! "epoch") as [?|]; run_body; [|done].
  destruct (checkpoint !! "global_step") as [?|]; run_body; [|done].
  read_key_then checkpoint "state_dict_network" done.
  read_key_then checkpoint "state_optimizer" done.
  read_key_then checkpoint "state_criterion" done.
  read_key_then checkpoint "state_lr_scheduler_criterion" done.
  destruct sch as [sch|]; run_body; [|done].
  read_key_then checkpoint "state_lr_scheduler" ltac:(by rewrite !is_Some_alt).
Qed.

(** ** Loading what was saved *)

Section LoadSaved.
Context `{Torch}.

Lemma checkpoint_dict_lookups (s : MarginTrainer.state) global_epoch global_step :
  let checkpoint := MarginTrainer.checkpoint_dict s global_epoch global_step in
  checkpoint !! "epoch" = Some (MarginTrainer.PyInt global_epoch) ∧
  checkpoint !! "global_step" = Some (MarginTrainer.PyInt global_step) ∧
  checkpoint !! "state_dict_network" =
    Some (MarginTrainer.NetStateDict (MarginTrainer.network s)) ∧
  checkpoint !! "state_optimizer" =
    Some (MarginTrainer.OptStateDict (MarginTrainer.optimizer s)) ∧
  checkpoint !! "state_criterion" =
    Some (MarginTrainer.CritStateDict (MarginTrainer.criterion s)) ∧
  checkpoint !! "state_lr_scheduler_criterion" =
    Some (MarginTrainer.LambdaLRStateDict (MarginTrainer.scheduler_criterion s)) ∧
  checkpoint !! "state_lr_scheduler" =
    MarginTrainer.SchedStateDict <$> MarginTrainer.scheduler s.
Proof.
  unfold MarginTrainer.checkpoint_dict.
  destruct (MarginTrainer.scheduler s) as [sch|]; simpl;
    repeat split; by simplify_map_eq.
Qed.

(** What a run of [load_all_states] that returns has read and written. *)
Lemma load_all_states_inv (s s' : MarginTrainer.state) path device fs :
  MarginTrainer.load_all_states path device fs s = (inr (), s') →
  ∃ checkpoint epoch global_step dn do dc dl ds,
    fs !! path = Some checkpoint ∧
    checkpoint !! "epoch" = Some epoch ∧
    checkpoint !! "global_step" = Some global_step ∧
    checkpoint !! "state_dict_network" = Some (MarginTrainer.NetStateDict dn) ∧
    checkpoint !! "state_optimizer" = Some (MarginTrainer.OptStateDict do) ∧
    checkpoint !! "state_criterion" = Some (MarginTrainer.CritStateDict dc) ∧
    checkpoint !! "state_lr_scheduler_criterion" =
      Some (MarginTrainer.LambdaLRStateDict dl) ∧
    (is_Some (MarginTrainer.scheduler s) →
     is_Some ds ∧
     checkpoint !! "state_lr_scheduler" = MarginTrainer.SchedStateDict <$> ds) ∧
    (MarginTrainer.scheduler s = None → ds = None) ∧
    s' = {| MarginTrainer.network := dn;
            MarginTrainer.training := MarginTrainer.training s;
            MarginTrainer.net_grad := MarginTrainer.net_grad s;
            MarginTrainer.optimizer := do;
            MarginTrainer.scheduler := ds;
            MarginTrainer.criterion := dc;
            MarginTrainer.crit_grad := MarginTrainer.crit_grad s;
            MarginTrainer.opt_criterion := MarginTrainer.opt_criterion s;
            MarginTrainer.scheduler_criterion := dl;
            MarginTrainer.start_epoch := epoch;
            MarginTrainer.global_step := global_step;
            MarginTrainer.log := MarginTrainer.log s |}.
Proof.
  destruct s as [n tr gn o sch c gc oc sc se gs lg].
  unfold MarginTrainer.load_all_states, MarginTrainer.torch_load.
  run_body.
  destruct (fs !! path) as [checkpoint|] eqn:Hfile; run_body; [|done].
  destruct (checkpoint !! "epoch") as [epoch|] eqn:Hepoch; run_body; [|done].
  destruct (checkpoint !! "global_step") as [global_step|] eqn:Hstep;
    run_body; [|done].
  read_key_then checkpoint "state_dict_network" done.
  read_key_then checkpoint "state_optimizer" done.
  read_key_then checkpoint "state_criterion" done.
  read_key_then checkpoint "state_lr_scheduler_criterion" done.
  destruct sch as [sch|]; run_body.
  - read_key_then checkpoint "state_lr_scheduler" done.
    intros [= <-]. eexists checkpoint, _, _, _, _, _, _, (Some _).
    repeat split; try done; try by eexists.
  - intros [= <-]. eexists checkpoint, _, _, _, _, _, _, None.
    repeat split; try done; try by intros [].
Qed.

End LoadSaved.

(** X11: A file saved by a trainer without a network schedule cannot be loaded by
    a trainer that has one: [load_all_states] raises the [KeyError] for
    ["state_lr_scheduler"], the last key it reads, after the start epoch, the
    global step, the network, the network optimizer, the loss parameters and
    the loss schedule have been restored; the network schedule keeps its
    state. *)
Theorem load_all_states_needs_the_saved_schedule `{Torch}
    (original fresh : MarginTrainer.state) (path device : string)
    (global_epoch global_step : Z)
    (fs : gmap string (gmap string MarginTrainer.PyObj)) :
  MarginTrainer.scheduler original = None →
  is_Some (MarginTrainer.scheduler fresh) →
  ∃ ckpt_path fs' s',
    MarginTrainer.save_all_states path global_epoch global_step fs original
      = (inr (ckpt_path, fs'), original) ∧
    MarginTrainer.load_all_states ckpt_path device fs' fresh
      = (inl (KeyError "state_lr_scheduler"), s') ∧
    MarginTrainer.start_epoch s' = MarginTrainer.PyInt global_epoch ∧
    MarginTrainer.global_step s' = MarginTrainer.PyInt global_step ∧
    MarginTrainer.network s' = MarginTrainer.network original ∧
    MarginTrainer.optimizer s' = MarginTrainer.optimizer original ∧
    MarginTrainer.criterion s' = MarginTrainer.criterion original ∧
    MarginTrainer.scheduler_criterion s'
      = MarginTrainer.scheduler_criterion original ∧
    MarginTrainer.scheduler s' = MarginTrainer.scheduler fresh.
Proof.
  intros Hnone [sch Hsch].
  destruct (checkpoint_dict_lookups original global_epoch global_step)
    as (Hepoch & Hstep & Hnet & Hopt & Hcrit & Hlr & Hsched).
  rewrite Hnone in Hsched. simpl in Hsched.
  destruct fresh as [n tr gn o schf c gc oc sc se gs lg]. simpl in Hsch. subst schf.
  eexists _, _, _. split; [apply save_all_states_eq|].
  split.
  - run_body. rewrite lookup_insert_eq. run_body.
    rewrite Hepoch. run_body. rewrite Hstep. run_body. rewrite Hnet. run_body.
    rewrite Hopt. run_body. rewrite Hcrit. run_body. rewrite Hlr. run_body.
    rewrite Hsched. reflexivity.
  - repeat split.
Qed.


Lemma load_all_states_needs_the_saved_schedule_witness :
  let original := Toy.margin_trainer 2 3 None in
  let fresh := Toy.margin_trainer 0 1 (Some 0%Z) in
  ∃ ckpt_path fs' s',
    MarginTrainer.save_all_states (H := Toy.toy) "runs" 3 120 ∅ original
      = (inr (ckpt_path, fs'), original) ∧
    MarginTrainer.load_all_states ckpt_path "cpu" fs' fresh
      = (inl (KeyError "state_lr_scheduler"), s') ∧
    MarginTrainer.start_epoch s' = MarginTrainer.PyInt 3 ∧
    MarginTrainer.global_step s' = MarginTrainer.PyInt 120 ∧
    MarginTrainer.network s' = MarginTrainer.network original ∧
    MarginTrainer.optimizer s' = MarginTrainer.optimizer original ∧
    MarginTrainer.criterion s' = MarginTrainer.criterion original ∧
    MarginTrainer.scheduler_criterion s'
      = MarginTrainer.scheduler_criterion original ∧
    MarginTrainer.scheduler s' = MarginTrainer.scheduler fresh.
Proof.
  apply (load_all_states_needs_the_saved_schedule (H := Toy.toy)).
  - reflexivity.
  - by eexists.
Defined.

(** X12: Loading is idempotent: when [load_all_states] returns, loading the same
    file again into the restored trainer returns and changes nothing. *)
Theorem load_all_states_twice `{Torch} (s s' : MarginTrainer.state)
    (path device : string) (fs : gmap string (gmap string MarginTrainer.PyObj)) :
  MarginTrainer.load_all_states path device fs s = (inr (), s') →
  MarginTrainer.load_all_states path device fs s' = (inr (), s').
Proof.
  intros Hload.
  destruct (load_all_states_inv _ _ _ _ _ Hload)
    as (checkpoint & epoch & global_step & dn & do & dc & dl & ds
        & Hfile & Hepoch & Hstep & Hnet & Hopt & Hcrit & Hlr & Hsched & Hnone & ->).
  rewrite (load_all_states_run _ path device fs checkpoint
             epoch global_step dn do dc dl ds); try done.
  - cbn. by destruct ds.
  - cbn. intros Hds. split; [done|].
    destruct (MarginTrainer.scheduler s) as [sch|] eqn:Hs.
    + by apply Hsched.
    + rewrite Hnone in Hds by done. by destruct Hds.
Qed.

Lemma load_all_states_twice_witness :
  ∃ s',
    MarginTrainer.load_all_states (H := Toy.toy) "ck.pt" "cpu"
      {["ck.pt" := MarginTrainer.checkpoint_dict (Toy.margin_trainer 2 3 None) 3 120]}
      (Toy.margin_trainer 0 1 None) = (inr (), s') ∧
    MarginTrainer.load_all_states (H := Toy.toy) "ck.pt" "cpu"
      {["ck.pt" := MarginTrainer.checkpoint_dict (Toy.margin_trainer 2 3 None) 3 120]}
      s' = (inr (), s').
Proof.
  eexists. split; [vm_compute; reflexivity|].
  apply (load_all_states_twice (H := Toy.toy) (Toy.margin_trainer 0 1 None)).
  vm_compute. reflexivity.
Defined.

(** X13: A restored trainer writes the file it was restored from: after
    [save_all_states] and [load_all_states] into a fresh trainer with the
    same schedule configuration, saving the restored trainer under the same
    directory, epoch and step writes the same path and leaves the file
    system as it is. *)
Theorem restored_trainer_saves_the_same_file `{Torch}
    (original fresh : MarginTrainer.state) (path device : string)
    (global_epoch global_step : Z)
    (fs : gmap string (gmap string MarginTrainer.PyObj)) :
  (is_Some (MarginTrainer.scheduler fresh) ↔
   is_Some (MarginTrainer.scheduler original)) →
  ∃ ckpt_path fs' restored,
    MarginTrainer.save_all_states path global_epoch global_step fs original
      = (inr (ckpt_path, fs'), original) ∧
    MarginTrainer.load_all_states ckpt_path device fs' fresh = (inr (), restored) ∧
    MarginTrainer.save_all_states path global_epoch global_step fs' restored
      = (inr (ckpt_path, fs'), restored).
Proof.
  intros Hconfig.
  destruct (checkpoint_dict_lookups original global_epoch global_step)
    as (Hepoch & Hstep & Hnet & Hopt & Hcrit & Hlr & Hsched).
  eexists _, _, _. split; [apply save_all_states_eq|].
  split.
  { eapply (load_all_states_run fresh _ device _ _ _ _ _ _ _ _
              (MarginTrainer.scheduler original)); try eassumption.
    - apply lookup_insert_eq.
    - intros Hfresh. split; [by apply Hconfig | exact Hsched]. }
  rewrite save_all_states_eq. f_equal. f_equal. f_equal.
  unfold MarginTrainer.checkpoint_dict at 1. cbn.
  assert (match MarginTrainer.scheduler fresh with
          | Some _ => MarginTrainer.scheduler original
          | None => None
          end = MarginTrainer.scheduler original) as ->.
  { destruct (MarginTrainer.scheduler fresh) as [schf|] eqn:Hf; [done|].
    destruct (MarginTrainer.scheduler original) as [scho|] eqn:Ho; [|done].
    destruct (proj2 Hconfig) as [? [=]]. by eexists. }
  by rewrite insert_insert_eq.
Qed.

Lemma restored_trainer_saves_the_same_file_witness :
  let original := Toy.margin_trainer 2 3 (Some 4%Z) in
  let fresh := Toy.margin_trainer 0 1 (Some 0%Z) in
  ∃ ckpt_path fs' restored,
    MarginTrainer.save_all_states (H := Toy.toy) "runs" 3 120 ∅ original
      = (inr (ckpt_path, fs'), original) ∧
    MarginTrainer.load_all_states ckpt_path "cpu" fs' fresh = (inr (), restored) ∧
    MarginTrainer.save_all_states "runs" 3 120 fs' restored
      = (inr (ckpt_path, fs'), restored).
Proof.
  apply (restored_trainer_saves_the_same_file (H := Toy.toy)).
  split; intros _; by eexists.
Defined.

(** ** Steps, schedules and the constructor *)

(** X14: Neither step of [MarginTrainer] advances a schedule or writes the epoch
    and step counters: the state of both schedules, the start epoch and the
    global step are after [train_step] and after [test_step] what they were
    before. *)
Theorem MarginTrainer_steps_leave_the_schedules `{Torch}
    (s : MarginTrainer.state) (batch : TokenIds * Audio * list Z) :
  ∀ s', s' = (MarginTrainer.train_step batch s).2 ∨
        s' = (MarginTrainer.test_step batch s).2 →
    MarginTrainer.scheduler s' = MarginTrainer.scheduler s ∧
    MarginTrainer.scheduler_criterion s' = MarginTrainer.scheduler_criterion s ∧
    MarginTrainer.start_epoch s' = MarginTrainer.start_epoch s ∧
    MarginTrainer.global_step s' = MarginTrainer.global_step s.
Proof.
  destruct batch as [[input_ids audio] label].
  intros s' [-> | ->].
  - rewrite MarginTrainer_train_step_run. by cbn.
  - rewrite MarginTrainer_test_step_run. by cbn.
Qed.

Lemma MarginTrainer_steps_leave_the_schedules_witness :
  let s := Toy.margin_trainer 2 3 (Some 4%Z) in
  let s' := (MarginTrainer.train_step (H := Toy.toy)
               ([1; 2]%Z, [3; 0.25]%Q, [0; 0]%Z) s).2 in
  MarginTrainer.scheduler s' = MarginTrainer.scheduler s ∧
  MarginTrainer.scheduler_criterion s' = MarginTrainer.scheduler_criterion s ∧
  MarginTrainer.start_epoch s' = MarginTrainer.start_epoch s ∧
  MarginTrainer.global_step s' = MarginTrainer.global_step s.
Proof.
  apply (MarginTrainer_steps_leave_the_schedules (H := Toy.toy)
           (Toy.margin_trainer 2 3 (Some 4%Z)) ([1; 2]%Z, [3; 0.25]%Q, [0; 0]%Z)).
  by left.
Defined.


(** X16: A schedule step issued right after a restore behaves as in the run that
    saved: after [save_all_states] and [load_all_states] into a fresh
    trainer with the same schedule configuration, one call of
    [lr_scheduler] on the saving trainer and one on the restored trainer
    give the same states of both schedules, the same network optimizer and
    the same rate of the loss-function optimizer. *)
Theorem schedule_step_after_restore `{Torch}
    (original fresh : MarginTrainer.state) (path device : string)
    (global_epoch global_step step epoch step' epoch' : Z)
    (fs : gmap string (gmap string MarginTrainer.PyObj)) :
  (is_Some (MarginTrainer.scheduler fresh) ↔
   is_Some (MarginTrainer.scheduler original)) →
  ∃ ckpt_path fs' restored,
    MarginTrainer.save_all_states path global_epoch global_step fs original
      = (inr (ckpt_path, fs'), original) ∧
    MarginTrainer.load_all_states ckpt_path device fs' fresh = (inr (), restored) ∧
    let after := (MarginTrainer.lr_scheduler step epoch original).2 in
    let after' := (MarginTrainer.lr_scheduler step' epoch' restored).2 in
    MarginTrainer.scheduler_criterion after' = MarginTrainer.scheduler_criterion after ∧
    MarginTrainer.scheduler after' = MarginTrainer.scheduler after ∧
    MarginTrainer.optimizer after' = MarginTrainer.optimizer after ∧
    lr (MarginTrainer.opt_criterion after') = lr (MarginTrainer.opt_criterion after).
Proof.
  intros Hconfig.
  destruct (checkpoint_dict_lookups original global_epoch global_step)
    as (Hepoch & Hstep & Hnet & Hopt & Hcrit & Hlr & Hsched).
  eexists _, _, _. split; [apply save_all_states_eq|].
  split.
  { eapply (load_all_states_run fresh _ device _ _ _ _ _ _ _ _
              (MarginTrainer.scheduler original)); try eassumption.
    - apply lookup_insert_eq.
    - intros Hfresh. split; [by apply Hconfig | exact Hsched]. }
  assert (match MarginTrainer.scheduler fresh with
          | Some _ => MarginTrainer.scheduler original
          | None => None
          end = MarginTrainer.scheduler original) as ->.
  { destruct (MarginTrainer.scheduler fresh) as [schf|] eqn:Hf; [done|].
    destruct (MarginTrainer.scheduler original) as [scho|] eqn:Ho; [|done].
    destruct (proj2 Hconfig) as [? [=]]. by eexists. }
  destruct original as [n tr gn o [sch|] c gc oc sc se gs lg];
    run_body; repeat split.
Qed.

Lemma schedule_step_after_restore_witness :
  let original := Toy.margin_trainer_in_training 2 3 (Some 4%Z) in
  let fresh := Toy.margin_trainer 0 1 (Some 0%Z) in
  ∃ ckpt_path fs' restored,
    MarginTrainer.save_all_states (H := Toy.toy) "runs" 3 120 ∅ original
      = (inr (ckpt_path, fs'), original) ∧
    MarginTrainer.load_all_states ckpt_path "cpu" fs' fresh = (inr (), restored) ∧
    let after := (MarginTrainer.lr_scheduler 0 0 original).2 in
    let after' := (MarginTrainer.lr_scheduler 1 1 restored).2 in
    MarginTrainer.scheduler_criterion after' = MarginTrainer.scheduler_criterion after ∧
    MarginTrainer.scheduler after' = MarginTrainer.scheduler after ∧
    MarginTrainer.optimizer after' = MarginTrainer.optimizer after ∧
    lr (MarginTrainer.opt_criterion after') = lr (MarginTrainer.opt_criterion after).
Proof.
  apply (schedule_step_after_restore (H := Toy.toy)).
  split; intros _; by eexists.
Defined.
